(** * fritter-static: a shallow embedding of [FritterStaticMiddleware]

    The development follows the class of the static-file middleware:
    its [execute] request handler (path resolution over the configured
    directories, the [fileDataCache] metadata cache, the conditional
    response and the gzip decision) and its [getCacheBustedPath] helper.

    Conventions.
    - A JavaScript string is a [string]: the sequence of its code units
      (for text outside ASCII, the bytes of its UTF-8 encoding).
    - [fileDataCache], a JS object used as a dictionary, is a
      [gmap string File]; cached objects are only ever reachable through
      the one key they were stored under, so a field assignment on a
      cached object is an [insert] at that key. The map is the object
      for every key but the names the object inherits from its
      prototype ([objectPrototypeKeys]).
    - The file system is a function from paths to [option Stats]:
      [None] is a rejected [fs.promises.stat] / a throwing [fs.statSync].
      One call of [execute] observes one file system; it may differ
      from call to call.
    - The response object belongs to the framework: a run of [execute]
      is the list of mutator calls it makes on it, and [run_calls]
      replays such a list on a record of the response's fields. *)

From Stdlib Require Import ZArith Ascii String List Bool Lia.
From stdpp Require Import base option list strings gmap pretty.

Local Open Scope string_scope.
Local Open Scope Z_scope.

(** ** The runtime functions the middleware imports

    [node:path] (in its POSIX flavour) and [decodeURIComponent] are not
    part of the repository; they are modelled here after their
    documented behaviour so that the middleware can be run on concrete
    requests. The general theorems below do not depend on this module:
    they hold for any implementation of these functions. *)
Module Node.

Definition is_slash (c : ascii) : bool := Ascii.eqb c "/".

(** The segments of a path between its ["/"] separators. *)
Fixpoint split (s : string) : list string :=
  match s with
  | EmptyString => [EmptyString]
  | String c r =>
      if is_slash c then EmptyString :: split r
      else match split r with
           | seg :: segs => String c seg :: segs
           | [] => [String c EmptyString]
           end
  end.

(** One step of [normalizeString]: [res] is the stack of the segments
    kept so far, innermost first. *)
Definition push_segment (allowAboveRoot : bool) (res : list string)
    (seg : string) : list string :=
  if String.eqb seg "" || String.eqb seg "." then res
  else if String.eqb seg ".." then
    match res with
    | top :: below =>
        if String.eqb top ".."
        then (if allowAboveRoot then ".." :: res else res)
        else below
    | [] => if allowAboveRoot then [".."] else []
    end
  else seg :: res.

Definition normalizeString (path : string) (allowAboveRoot : bool) : string :=
  String.concat "/" (rev (fold_left (push_segment allowAboveRoot) (split path) [])).

Definition first_is_slash (s : string) : bool :=
  match s with
  | String c _ => is_slash c
  | EmptyString => false
  end.

Fixpoint last_is_slash (s : string) : bool :=
  match s with
  | EmptyString => false
  | String c EmptyString => is_slash c
  | String _ r => last_is_slash r
  end.

(** [path.posix.normalize] *)
Definition posix_normalize (path : string) : string :=
  if String.eqb path "" then "."
  else
    let isAbsolute := first_is_slash path in
    let trailingSeparator := last_is_slash path in
    let p := normalizeString path (negb isAbsolute) in
    if String.eqb p "" then
      (if isAbsolute then "/" else if trailingSeparator then "./" else ".")
    else
      let p := if trailingSeparator then p ++ "/" else p in
      if isAbsolute then "/" ++ p else p.

(** [path.join] of two arguments, on a POSIX host. *)
Definition posix_join (a b : string) : string :=
  if String.eqb a "" then
    (if String.eqb b "" then "." else posix_normalize b)
  else if String.eqb b "" then posix_normalize a
  else posix_normalize (a ++ "/" ++ b).

(** [path.basename] with no suffix, on a POSIX host: the last segment
    that is not empty, or [""]. *)
Definition posix_basename (path : string) : string :=
  match filter (fun seg => negb (String.eqb seg "")) (rev (split path)) with
  | seg :: _ => seg
  | [] => ""
  end.

Definition hex_digit (c : ascii) : option N :=
  let n := N_of_ascii c in
  if (48 <=? n)%N && (n <=? 57)%N then Some (n - 48)%N
  else if (65 <=? n)%N && (n <=? 70)%N then Some (n - 55)%N
  else if (97 <=? n)%N && (n <=? 102)%N then Some (n - 87)%N
  else None.

Definition between (lo hi n : N) : bool := (lo <=? n)%N && (n <=? hi)%N.

(** [decodeURIComponent]: every ["%XX"] escape is replaced by its
    octet; escaped octets above 127 must form a well-formed UTF-8
    sequence; anything else is a URIError ([None]). [pending] counts the
    continuation octets still owed, [lo] and [hi] bound the next one. *)
Fixpoint decode_go (pending : nat) (lo hi : N) (s : string) : option string :=
  match s with
  | EmptyString => match pending with O => Some EmptyString | S _ => None end
  | String "%" (String h1 (String h2 rest)) =>
      match hex_digit h1, hex_digit h2 with
      | Some a, Some b =>
          let B := (16 * a + b)%N in
          match pending with
          | O =>
              if (B <? 128)%N then String (ascii_of_N B) <$> decode_go 0 128 191 rest
              else if between 194 223 B then String (ascii_of_N B) <$> decode_go 1 128 191 rest
              else if (B =? 224)%N then String (ascii_of_N B) <$> decode_go 2 160 191 rest
              else if between 225 236 B || between 238 239 B
                   then String (ascii_of_N B) <$> decode_go 2 128 191 rest
              else if (B =? 237)%N then String (ascii_of_N B) <$> decode_go 2 128 159 rest
              else if (B =? 240)%N then String (ascii_of_N B) <$> decode_go 3 144 191 rest
              else if between 241 243 B then String (ascii_of_N B) <$> decode_go 3 128 191 rest
              else if (B =? 244)%N then String (ascii_of_N B) <$> decode_go 3 128 143 rest
              else None
          | S k =>
              if between lo hi B then String (ascii_of_N B) <$> decode_go k 128 191 rest
              else None
          end
      | _, _ => None
      end
  | String "%" _ => None
  | String c rest =>
      match pending with
      | O => String c <$> decode_go 0 128 191 rest
      | S _ => None
      end
  end.

Definition decodeURIComponent (s : string) : option string := decode_go 0 128 191 s.

End Node.

(** ** Data model *)

(** [fs.Stats], as far as the middleware reads it. [mtime] is the time
    value of the [Date] (whole milliseconds); [mtimeMs] is a JS number
    that may carry a fraction, so its type is left to the runtime. *)
Module fs.
Record Stats (number : Type) := mkStats {
  isFile : bool;
  mtime : Z;
  mtimeMs : number;
  size : Z
}.
Arguments mkStats {number}.
Arguments isFile {number}.
Arguments mtime {number}.
Arguments mtimeMs {number}.
Arguments size {number}.
End fs.

Record FritterStaticMiddlewareDirectory := mkDirectory {
  mountPath : option string;
  path : string
}.

Record FritterStaticMiddlewareFile (number : Type) := mkFile {
  onDiskFilePath : string;
  modifiedDate : Z;
  size : Z;
  stats : fs.Stats number;
  type : string
}.
Arguments mkFile {number}.
Arguments onDiskFilePath {number}.
Arguments modifiedDate {number}.
Arguments size {number}.
Arguments stats {number}.
Arguments type {number}.

Record FritterStaticMiddlewareOptions := mkOptions {
  options_cacheControlHeader : option string;
  options_dirs : list FritterStaticMiddlewareDirectory;
  options_enableGzip : option bool;
  options_maxAge : option Z
}.

Record FritterStaticMiddleware := mkMiddleware {
  cacheControlHeader : string;
  dirs : list FritterStaticMiddlewareDirectory;
  enableGzip : bool;
  maxAge : Z
}.

(** The constructor's defaults ([??] falls back on a missing option).
    [maxAge] is a whole number of seconds; [pretty] prints it as
    JavaScript prints a number as long as it is a safe integer (below
    2^53 in absolute value). *)
Definition constructor (options : FritterStaticMiddlewareOptions) : FritterStaticMiddleware :=
  let maxAge := default 0 (options_maxAge options) in
  {| cacheControlHeader :=
       default ("public, max-age=" ++ pretty maxAge) (options_cacheControlHeader options);
     dirs := options_dirs options;
     enableGzip := default true (options_enableGzip options);
     maxAge := maxAge |}.

(** The body handed to the response: a read stream over a file,
    possibly piped through [zlib.createGzip()]. *)
Inductive Body :=
| createReadStream (onDiskFilePath : string)
| pipe_createGzip (readStream : Body).

(** The calls [execute] makes on [context.fritterResponse]. *)
Inductive ResponseCall :=
| setStatusCode (code : Z)
| setLastModified (date : Z)
| appendVaryHeaderName (name : string)
| setContentType (contentType : string)
| setContentLength (length : Z)
| setHeaderValue (name value : string)
| removeHeaderValue (name : string)
| setBody (body : Body).

(** What [getAccepts().encoding("gzip")] evaluates to. The framework's
    negotiator answers with the name of the encoding the client
    accepts, or with [false] when the client accepts none of those
    asked for; [null] is what the handler compares the answer with. *)
Inductive EncodingAnswer :=
| answer_null
| answer_false
| answer (encoding : string).

(** [context.fritterRequest], as far as the middleware reads it.
    [isFresh] is evaluated by the framework against the response as it
    stands when it is called, hence its argument.
    [getAccepts_encoding_gzip] is the value of
    [getAccepts().encoding("gzip")]. *)
Record FritterRequest := mkRequest {
  getHttpMethod : string;
  getPath : string;
  isFresh : list ResponseCall → bool;
  getAccepts_encoding_gzip : EncodingAnswer
}.

(** Modelled from the spec: the framework's response object, of which
    the repository only holds the calls. Status, Last-Modified, Vary,
    content type and content length are kept as fields, the other
    headers by name; removing "Content-Length" clears the content
    length. *)
Record FritterResponse := mkResponse {
  statusCode : option Z;
  lastModified : option Z;
  varyHeaderNames : list string;
  contentType : option string;
  contentLength : option Z;
  headerValues : gmap string string;
  body : option Body
}.

Definition emptyResponse : FritterResponse :=
  {| statusCode := None; lastModified := None; varyHeaderNames := [];
     contentType := None; contentLength := None; headerValues := ∅; body := None |}.

Definition run_call (r : FritterResponse) (c : ResponseCall) : FritterResponse :=
  match c with
  | setStatusCode code =>
      mkResponse (Some code) (lastModified r) (varyHeaderNames r) (contentType r)
        (contentLength r) (headerValues r) (body r)
  | setLastModified date =>
      mkResponse (statusCode r) (Some date) (varyHeaderNames r) (contentType r)
        (contentLength r) (headerValues r) (body r)
  | appendVaryHeaderName name =>
      mkResponse (statusCode r) (lastModified r) (varyHeaderNames r ++ [name]) (contentType r)
        (contentLength r) (headerValues r) (body r)
  | setContentType t =>
      mkResponse (statusCode r) (lastModified r) (varyHeaderNames r) (Some t)
        (contentLength r) (headerValues r) (body r)
  | setContentLength n =>
      mkResponse (statusCode r) (lastModified r) (varyHeaderNames r) (contentType r)
        (Some n) (headerValues r) (body r)
  | setHeaderValue name value =>
      mkResponse (statusCode r) (lastModified r) (varyHeaderNames r) (contentType r)
        (contentLength r) (<[name := value]> (headerValues r)) (body r)
  | removeHeaderValue name =>
      mkResponse (statusCode r) (lastModified r) (varyHeaderNames r) (contentType r)
        (if String.eqb name "Content-Length" then None else contentLength r)
        (delete name (headerValues r)) (body r)
  | setBody b =>
      mkResponse (statusCode r) (lastModified r) (varyHeaderNames r) (contentType r)
        (contentLength r) (headerValues r) (Some b)
  end.

Definition run_calls (calls : list ResponseCall) : FritterResponse :=
  fold_left run_call calls emptyResponse.

(** The response without its body: status and headers. *)
Definition headersOf (r : FritterResponse) :
    option Z * option Z * list string * option string * option Z * gmap string string :=
  (statusCode r, lastModified r, varyHeaderNames r, contentType r, contentLength r,
   headerValues r).

(** How one call of [execute] ends. *)
Inductive Outcome :=
| next                                  (* [return await next()] *)
| rejected                              (* the returned promise rejects *)
| responded (calls : list ResponseCall) (* the handler returns *).

(** ** The imported functions *)

Class Imports (number : Type) := {
  number_eq_dec :: EqDecision number;
  Number_toString : number → string;
  decodeURIComponent : string → option string;
  path_posix_normalize : string → string;
  path_basename : string → string;
  path_join : string → string → string;
  (** [mimeTypes.lookup]: [None] is its [false] *)
  mimeTypes_lookup : string → option string;
  isCompressible : string → bool
}.

(** ** String primitives *)

Definition startsWith (s searchString : string) : bool := String.prefix searchString s.

Fixpoint slice (s : string) (start : nat) : string :=
  match start, s with
  | O, _ => s
  | S n, String _ r => slice r n
  | S _, EmptyString => EmptyString
  end.

(** ** The middleware *)

Section Middleware.

Context {number : Type} `{!Imports number}.

Abbreviation File := (FritterStaticMiddlewareFile number).
Abbreviation Cache := (gmap string (FritterStaticMiddlewareFile number)).
Abbreviation FileSystem := (string → option (fs.Stats number)).

(** [mimeTypes.lookup(p) || "application/octet-stream"] *)
Definition lookupType (onDiskFilePath : string) : string :=
  match mimeTypes_lookup onDiskFilePath with
  | Some t => if String.eqb t "" then "application/octet-stream" else t
  | None => "application/octet-stream"
  end.

(** "Handle Mount Point": [None] is the [continue], otherwise the value
    of [requestedFilePath] after the block. *)
Definition handleMountPoint (dir : FritterStaticMiddlewareDirectory)
    (requestedFilePath : string) : option string :=
  match mountPath dir with
  | Some m =>
      if negb (startsWith requestedFilePath m) then None
      else Some (slice requestedFilePath (String.length m))
  | None => Some requestedFilePath
  end.

(** "Create File Data" *)
Definition createFileData (onDiskFilePath : string) (stats : fs.Stats number) : File :=
  {| onDiskFilePath := onDiskFilePath;
     modifiedDate := fs.mtime stats;
     size := fs.size stats;
     stats := stats;
     type := lookupType onDiskFilePath |}.

(** How the loop over [this.dirs] ends; [requestedFilePath] is the value
    the variable holds at that point. *)
Inductive Iteration :=
| traversal                                               (* [return await next()] *)
| found (requestedFilePath : string) (file : File)        (* [break] *)
| exhausted (requestedFilePath : string).

(** "Iterate Directories" *)
Fixpoint iterateDirectories (stat : FileSystem) (dirs : list FritterStaticMiddlewareDirectory)
    (requestedFilePath : string) : Iteration :=
  match dirs with
  | [] => exhausted requestedFilePath
  | dir :: rest =>
      match handleMountPoint dir requestedFilePath with
      | None => iterateDirectories stat rest requestedFilePath
      | Some requestedFilePath =>
          let onDiskFilePath := path_join (path dir) requestedFilePath in
          if negb (startsWith onDiskFilePath (path dir)) then traversal
          else
            match stat onDiskFilePath with
            | None => iterateDirectories stat rest requestedFilePath
            | Some stats =>
                if negb (fs.isFile stats) then iterateDirectories stat rest requestedFilePath
                else found requestedFilePath (createFileData onDiskFilePath stats)
            end
      end
  end.

(** "Check On Disk File Modified Date": the fields assigned when the
    fresh [mtimeMs] differs from the cached one. *)
Definition checkOnDiskFileModifiedDate (file : File) (stats' : fs.Stats number) : File :=
  if bool_decide (fs.mtimeMs stats' ≠ fs.mtimeMs (stats file)) then
    {| onDiskFilePath := onDiskFilePath file;
       modifiedDate := fs.mtime stats';
       size := fs.size stats';
       stats := stats';
       type := lookupType (onDiskFilePath file) |}
  else file.

(** [getAccepts().encoding("gzip") != null]: only [null] is loosely
    equal to [null], [false] is not. *)
Definition acceptsGzip (context : FritterRequest) : bool :=
  match getAccepts_encoding_gzip context with
  | answer_null => false
  | answer_false => true
  | answer _ => true
  end.

Definition shouldGzip (this : FritterStaticMiddleware) (file : File) : bool :=
  enableGzip this && (1024 <? size file) && isCompressible (type file).

(** The calls made up to the freshness test. *)
Definition validators (this : FritterStaticMiddleware) (file : File) : list ResponseCall :=
  [setStatusCode 200; setLastModified (modifiedDate file)]
  ++ (if enableGzip this then [appendVaryHeaderName "Accept-Encoding"] else []).

(** The calls made between the freshness test and the [HEAD] test. *)
Definition entityHeaders (this : FritterStaticMiddleware) (file : File) : list ResponseCall :=
  [setContentType (type file); setContentLength (size file);
   setHeaderValue "Cache-Control" (cacheControlHeader this)].

(** The calls made from [fs.createReadStream] on. *)
Definition bodyCalls (this : FritterStaticMiddleware) (context : FritterRequest)
    (file : File) : list ResponseCall :=
  let readStream := createReadStream (onDiskFilePath file) in
  setBody readStream ::
  (if acceptsGzip context && shouldGzip this file then
     [removeHeaderValue "Content-Length"; setHeaderValue "Content-Encoding" "gzip";
      setBody (pipe_createGzip readStream)]
   else [setBody readStream]).

(** "Response" *)
Definition response (this : FritterStaticMiddleware) (context : FritterRequest)
    (file : File) : list ResponseCall :=
  if isFresh context (validators this file) then validators this file ++ [setStatusCode 304]
  else if String.eqb (getHttpMethod context) "HEAD"
       then validators this file ++ entityHeaders this file
       else validators this file ++ entityHeaders this file ++ bodyCalls this context file.

(** "Get File Data from Cache" and "Load File Data (if not cached)":
    the file, the key its object is stored under, and the cache. *)
Definition loadFileData (this : FritterStaticMiddleware) (stat : FileSystem)
    (fileDataCache : Cache) (requestedFilePath : string) : option (string * File * Cache) :=
  match fileDataCache !! requestedFilePath with
  | Some file => Some (requestedFilePath, file, fileDataCache)
  | None =>
      match iterateDirectories stat (dirs this) requestedFilePath with
      | found requestedFilePath file =>
          Some (requestedFilePath, file, <[requestedFilePath := file]> fileDataCache)
      | traversal | exhausted _ => None
      end
  end.

(** "Check Method" and "Get Path": the outcome if the handler ends
    there, otherwise the normalized [requestedFilePath]. *)
Definition getRequestedFilePath (context : FritterRequest) : Outcome + string :=
  if negb (String.eqb (getHttpMethod context) "GET")
     && negb (String.eqb (getHttpMethod context) "HEAD")
  then inl next
  else
    match decodeURIComponent (getPath context) with
    | None => inl rejected
    | Some decoded =>
        let requestedFilePath := path_posix_normalize decoded in
        if String.eqb (path_basename requestedFilePath) "." then inl next
        else inr requestedFilePath
    end.

Definition execute (this : FritterStaticMiddleware) (stat : FileSystem)
    (fileDataCache : Cache) (context : FritterRequest) : Outcome * Cache :=
  match getRequestedFilePath context with
  | inl outcome => (outcome, fileDataCache)
  | inr requestedFilePath =>
      match loadFileData this stat fileDataCache requestedFilePath with
      | None => (next, fileDataCache)
      | Some (key, file, fileDataCache) =>
          match stat (onDiskFilePath file) with
          | None => (rejected, fileDataCache)
          | Some stats' =>
              let file' := checkOnDiskFileModifiedDate file stats' in
              (responded (response this context file'),
               if bool_decide (fs.mtimeMs stats' ≠ fs.mtimeMs (stats file))
               then <[key := file']> fileDataCache else fileDataCache)
          end
      end
  end.

(** The loop of [getCacheBustedPath]. *)
Fixpoint getCacheBustedPath_dirs (statSync : FileSystem)
    (dirs : list FritterStaticMiddlewareDirectory) (filePath : string) : string :=
  match dirs with
  | [] => filePath
  | dir :: rest =>
      match handleMountPoint dir filePath with
      | None => getCacheBustedPath_dirs statSync rest filePath
      | Some filePath =>
          let onDiskPath := path_join (path dir) filePath in
          match statSync onDiskPath with
          | Some stats => filePath ++ "?mtime=" ++ pretty (fs.mtime stats)
          | None => getCacheBustedPath_dirs statSync rest filePath
          end
      end
  end.

Definition getCacheBustedPath (this : FritterStaticMiddleware) (statSync : FileSystem)
    (fileDataCache : Cache) (filePath : string) : string :=
  match fileDataCache !! filePath with
  | Some file => filePath ++ "?mtime=" ++ Number_toString (fs.mtimeMs (stats file))
  | None => getCacheBustedPath_dirs statSync (dirs this) filePath
  end.

End Middleware.

(** ** Notions used to state the properties *)

Section Notions.

Context {number : Type} `{!Imports number}.

(** [Skips stat dirs p p']: the loop over [dirs], entered with
    [requestedFilePath = p], serves nothing and does not end early; it
    leaves [requestedFilePath = p']. A mount is skipped when its prefix
    does not match, when the stat of its candidate fails, or when the
    candidate is not a regular file. *)
Inductive Skips (stat : string → option (fs.Stats number)) :
    list FritterStaticMiddlewareDirectory → string → string → Prop :=
| skips_nil p : Skips stat [] p p
| skips_mismatch dir rest p p' :
    handleMountPoint dir p = None →
    Skips stat rest p p' →
    Skips stat (dir :: rest) p p'
| skips_stat_failure dir rest p q p' :
    handleMountPoint dir p = Some q →
    startsWith (path_join (path dir) q) (path dir) = true →
    stat (path_join (path dir) q) = None →
    Skips stat rest q p' →
    Skips stat (dir :: rest) p p'
| skips_not_a_file dir rest p q st p' :
    handleMountPoint dir p = Some q →
    startsWith (path_join (path dir) q) (path dir) = true →
    stat (path_join (path dir) q) = Some st →
    fs.isFile st = false →
    Skips stat rest q p' →
    Skips stat (dir :: rest) p p'.

(** The stat of a candidate yields no file to serve. *)
Definition noFileAt (stat : string → option (fs.Stats number)) (onDiskFilePath : string) : Prop :=
  stat onDiskFilePath = None ∨ ∃ st, stat onDiskFilePath = Some st ∧ fs.isFile st = false.

End Notions.

(** The same request with another method. *)
Definition withHttpMethod (method : string) (context : FritterRequest) : FritterRequest :=
  {| getHttpMethod := method; getPath := getPath context; isFresh := isFresh context;
     getAccepts_encoding_gzip := getAccepts_encoding_gzip context |}.

(** ** The middleware on a POSIX host

    [mtimeMs] values are whole numbers of milliseconds here, printed as
    JavaScript prints an integer. The MIME tables hold the entries of
    [mime-db] for the extensions and types the examples use. *)
Module Posix.

Fixpoint afterLastDot (s : string) : option string :=
  match s with
  | EmptyString => None
  | String c r =>
      match afterLastDot r with
      | Some ext => Some ext
      | None => if Ascii.eqb c "." then Some r else None
      end
  end.

(** The extension of the last segment; a dot that starts the segment
    does not count. *)
Definition extension (onDiskFilePath : string) : string :=
  match Node.posix_basename onDiskFilePath with
  | String _ r => default "" (afterLastDot r)
  | EmptyString => ""
  end.

Definition lookup (onDiskFilePath : string) : option string :=
  let ext := extension onDiskFilePath in
  if String.eqb ext "css" then Some "text/css"
  else if String.eqb ext "html" then Some "text/html"
  else if String.eqb ext "txt" then Some "text/plain"
  else if String.eqb ext "json" then Some "application/json"
  else if String.eqb ext "png" then Some "image/png"
  else None.

Definition compressible (type : string) : bool :=
  String.prefix "text/" type || String.eqb type "application/json".

#[global] Instance imports : Imports Z := {|
  Number_toString := pretty;
  decodeURIComponent := Node.decodeURIComponent;
  path_posix_normalize := Node.posix_normalize;
  path_basename := Node.posix_basename;
  path_join := Node.posix_join;
  mimeTypes_lookup := lookup;
  isCompressible := compressible
|}.

(** A file system given by the list of its entries. *)
Fixpoint disk (entries : list (string * fs.Stats Z)) (p : string) : option (fs.Stats Z) :=
  match entries with
  | [] => None
  | (q, st) :: rest => if String.eqb p q then Some st else disk rest p
  end.

Definition regularFile (mtime size : Z) : fs.Stats Z :=
  fs.mkStats true mtime mtime size.

Definition directory (mtime : Z) : fs.Stats Z :=
  fs.mkStats false mtime mtime 4096.

(** The negotiator's answer for a client that accepts [encoding], and
    for one that does not accept gzip ([None]): its [false]. *)
Definition negotiated (encoding : option string) : EncodingAnswer :=
  match encoding with
  | Some name => answer name
  | None => answer_false
  end.

Definition GET (path : string) (encoding : option string) : FritterRequest :=
  {| getHttpMethod := "GET"; getPath := path; isFresh := fun _ => false;
     getAccepts_encoding_gzip := negotiated encoding |}.

Definition HEAD (path : string) (encoding : option string) : FritterRequest :=
  {| getHttpMethod := "HEAD"; getPath := path; isFresh := fun _ => false;
     getAccepts_encoding_gzip := negotiated encoding |}.

Definition execute := @execute Z imports.

Definition getCacheBustedPath := @getCacheBustedPath Z imports.

(** [p] lies in the directory [root] (both normalized, [root] without
    a trailing separator). *)
Definition inside (root p : string) : bool :=
  String.eqb p root || String.prefix (root ++ "/") p.

End Posix.


(** ** Configurations, disks and requests used in the examples *)
Module Examples.

(** One directory, served at the root. *)
Definition site : FritterStaticMiddleware :=
  constructor (mkOptions None [mkDirectory None "/srv/www"] None None).

(** The same directory, mounted under "/assets". *)
Definition mounted : FritterStaticMiddleware :=
  constructor (mkOptions None [mkDirectory (Some "/assets") "/srv/www"] None None).

(** Three directories at the root, in priority order. *)
Definition layered : FritterStaticMiddleware :=
  constructor (mkOptions None
    [mkDirectory None "/srv/theme"; mkDirectory None "/srv/www";
     mkDirectory None "/srv/fallback"] None None).

(** A mounted directory in front of one served at the root. *)
Definition overlay : FritterStaticMiddleware :=
  constructor (mkOptions None
    [mkDirectory (Some "/assets") "/srv/theme"; mkDirectory None "/srv/www"] None None).

Definition disk : string → option (fs.Stats Z) :=
  Posix.disk
    [("/srv/www", Posix.directory 1690000000000);
     ("/srv/www/x.css", Posix.regularFile 1700000000000 2000);
     ("/srv/www/small.css", Posix.regularFile 1700000000000 500);
     ("/srv/www/assets/x.css", Posix.regularFile 1700000000000 700);
     ("/srv/fallback/x.css", Posix.regularFile 1600000000000 90);
     ("/srv/www-secret/key.txt", Posix.regularFile 1700000000000 20)].

Definition xcss : FritterStaticMiddlewareFile Z :=
  createFileData "/srv/www/x.css" (Posix.regularFile 1700000000000 2000).

(** The entry for "/srv/www/x.css" as it was cached before the file
    was last written. *)
Definition xcssBefore : FritterStaticMiddlewareFile Z :=
  createFileData "/srv/www/x.css" (Posix.regularFile 1690000000000 1500).

End Examples.

(** The spec's HEAD property, read on the final responses: a HEAD that
    is answered ends with the status and headers of the same request
    made as a GET, and with no body. *)
Definition headYieldsHeadersOfGet {number : Type} `{!Imports number}
    (this : FritterStaticMiddleware) (stat : string → option (fs.Stats number))
    (fileDataCache : gmap string (FritterStaticMiddlewareFile number))
    (context : FritterRequest) : Prop :=
  ∀ calls fileDataCache',
    execute this stat fileDataCache context = (responded calls, fileDataCache') →
    ∃ getCalls fileDataCache'',
      execute this stat fileDataCache (withHttpMethod "GET" context)
      = (responded getCalls, fileDataCache'')
      ∧ headersOf (run_calls calls) = headersOf (run_calls getCalls)
      ∧ body (run_calls calls) = None.

(** ** Notions about cache entries and sequences of requests *)

(** The names every JavaScript object inherits from [Object.prototype].
    [fileDataCache] is a plain object: looked up under one of these
    names it yields a value that is not a cache entry, and an
    assignment under "__proto__" replaces its prototype instead of
    storing an entry. *)
Definition objectPrototypeKeys : list string :=
  ["constructor"; "__defineGetter__"; "__defineSetter__"; "hasOwnProperty";
   "__lookupGetter__"; "__lookupSetter__"; "isPrototypeOf"; "propertyIsEnumerable";
   "toString"; "valueOf"; "__proto__"; "toLocaleString"].

Definition inheritedKey (key : string) : bool :=
  existsb (String.eqb key) objectPrototypeKeys.

(** [Number.isSafeInteger]: the whole numbers a JavaScript number holds
    exactly, printed digit by digit when put into a string. *)
Definition isSafeInteger (n : Z) : Prop := (- 2 ^ 53 < n < 2 ^ 53)%Z.

(** The file a body reads from. *)
Fixpoint streamPath (b : Body) : string :=
  match b with
  | createReadStream onDiskFilePath => onDiskFilePath
  | pipe_createGzip readStream => streamPath readStream
  end.

Section Histories.

Context {number : Type} `{!Imports number}.

(** The derived fields of an entry agree with its stat snapshot and
    its on-disk path. *)
Definition consistent (file : FritterStaticMiddlewareFile number) : Prop :=
  modifiedDate file = fs.mtime (stats file)
  ∧ size file = fs.size (stats file)
  ∧ type file = lookupType (onDiskFilePath file).

(** The on-disk path of an entry has the path of a configured
    directory as a string prefix. *)
Definition rooted (this : FritterStaticMiddleware)
    (file : FritterStaticMiddlewareFile number) : Prop :=
  ∃ dir, In dir (dirs this) ∧ startsWith (onDiskFilePath file) (path dir) = true.

(** The cache after a sequence of calls of [execute] on one middleware,
    each call with the disk it sees and its request. *)
Fixpoint executeAll (this : FritterStaticMiddleware)
    (requests : list ((string → option (fs.Stats number)) * FritterRequest))
    (fileDataCache : gmap string (FritterStaticMiddlewareFile number)) :
    gmap string (FritterStaticMiddlewareFile number) :=
  match requests with
  | [] => fileDataCache
  | (stat, context) :: rest =>
      executeAll this rest (snd (execute this stat fileDataCache context))
  end.

End Histories.

(** ** Shapes of paths, directories and requests on a POSIX host *)
Module Layout.

(** A segment that names something: not empty, not "." and not "..". *)
Definition plainName (seg : string) : bool :=
  negb (String.eqb seg "" || String.eqb seg "." || String.eqb seg "..").

Definition emptyOrPlain (seg : string) : bool := String.eqb seg "" || plainName seg.

Fixpoint hasSlash (s : string) : bool :=
  match s with
  | EmptyString => false
  | String c r => Node.is_slash c || hasSlash r
  end.

(** The segments that are not empty. *)
Definition keep (l : list string) : list string :=
  List.filter (λ seg, negb (String.eqb seg "")) l.

(** An absolute directory path in normal form: "/" followed by one or
    more plain names separated by single "/", with no "/" at the end. *)
Definition cleanRoot (root : string) : bool :=
  match Node.split root with
  | "" :: seg :: segs => forallb plainName (seg :: segs)
  | _ => false
  end.

(** A directory path written "./" followed by something. *)
Definition dotSlashRoot (root : string) : bool :=
  match root with
  | String "." (String "/" (String _ _)) => true
  | _ => false
  end.

(** A directory with a clean root whose mount path, if it has one, ends
    with "/". *)
Definition safeDirectory (dir : FritterStaticMiddlewareDirectory) : bool :=
  cleanRoot (path dir)
  && match mountPath dir with
     | None => true
     | Some m => Node.last_is_slash m
     end.

(** A request whose path, once decoded, starts with "/". *)
Definition absoluteRequest (context : FritterRequest) : bool :=
  match Node.decodeURIComponent (getPath context) with
  | Some decoded => Node.first_is_slash decoded
  | None => true
  end.

(** The on-disk path of an entry is one of the directories or lies
    below it, and has no "." or ".." segment. *)
Definition insideADirectory (this : FritterStaticMiddleware)
    (file : FritterStaticMiddlewareFile Z) : Prop :=
  (∃ dir, In dir (dirs this) ∧ Posix.inside (path dir) (onDiskFilePath file) = true)
  ∧ Forall (λ seg, emptyOrPlain seg = true) (Node.split (onDiskFilePath file)).

End Layout.

(** ** The earlier class

    [src/classes/FritterStaticMiddleware.ts] is the class before mount
    paths: the directories are plain strings, every entry carries the
    MD5 of the file's content, which the response uses as entity tag,
    and the loop over the directories has no [break]. The disk is seen
    through [stat] and through [readFileMd5], which gives for a path
    the hex MD5 digest of what [fs.promises.readFile] returns there, and
    [None] where it rejects. *)
Module V1.

Record FritterStaticMiddlewareFile (number : Type) := mkFile {
  onDiskFilePath : string;
  md5 : string;
  modifiedDate : Z;
  size : Z;
  stats : fs.Stats number;
  type : string
}.
Arguments mkFile {number}.
Arguments onDiskFilePath {number}.
Arguments md5 {number}.
Arguments modifiedDate {number}.
Arguments size {number}.
Arguments stats {number}.
Arguments type {number}.

Record FritterStaticMiddlewareOptions := mkOptions {
  options_cacheControlHeader : option string;
  options_dirs : list string;
  options_enableGzip : option bool;
  options_maxAge : option Z
}.

Record FritterStaticMiddleware := mkMiddleware {
  cacheControlHeader : string;
  dirs : list string;
  enableGzip : bool;
  maxAge : Z
}.

Definition constructor (options : FritterStaticMiddlewareOptions) : FritterStaticMiddleware :=
  let maxAge := default 0 (options_maxAge options) in
  {| cacheControlHeader :=
       default ("public, max-age=" ++ pretty maxAge) (options_cacheControlHeader options);
     dirs := options_dirs options;
     enableGzip := default true (options_enableGzip options);
     maxAge := maxAge |}.

(** The calls this class makes on [context.fritterResponse]. *)
Inductive ResponseCall :=
| setStatusCode (code : Z)
| setLastModified (date : Z)
| setEntityTag (md5 : string)
| appendVaryHeaderName (name : string)
| setContentType (contentType : string)
| setContentLength (length : Z)
| setHeaderValue (name value : string)
| removeHeaderValue (name : string)
| setBody (body : Body).

Record FritterRequest := mkRequest {
  getHttpMethod : string;
  getPath : string;
  isFresh : list ResponseCall → bool;
  getAccepts_encoding_gzip : EncodingAnswer
}.

Inductive Outcome :=
| next
| rejected
| responded (calls : list ResponseCall).

Section Middleware.

Context {number : Type} `{!Imports number}.

(** [path.normalize] of the host *)
Variable path_normalize : string → string.

Abbreviation File := (FritterStaticMiddlewareFile number).
Abbreviation Cache := (gmap string (FritterStaticMiddlewareFile number)).
Abbreviation Stat := (string → option (fs.Stats number)).
Abbreviation ReadFileMd5 := (string → option string).

(** "Create File Data" *)
Definition createFileData (onDiskFilePath : string) (stats : fs.Stats number)
    (md5 : string) : File :=
  {| onDiskFilePath := onDiskFilePath;
     md5 := md5;
     modifiedDate := fs.mtime stats;
     size := fs.size stats;
     stats := stats;
     type := lookupType onDiskFilePath |}.

(** How the loop over [this.dirs] ends: [return await next()] at the
    guard, a rejected [readFile], or the end of the list; with the
    cache as the loop leaves it. *)
Inductive Iteration :=
| traversal (fileDataCache : Cache)
| unreadable (fileDataCache : Cache)
| finished (file : option File) (fileDataCache : Cache).

(** "Iterate Directories": [file] is the variable of that name, the
    cache is written at every directory that holds the file. *)
Fixpoint iterateDirectories (stat : Stat) (readFileMd5 : ReadFileMd5) (dirs : list string)
    (requestedFilePath : string) (file : option File) (fileDataCache : Cache) : Iteration :=
  match dirs with
  | [] => finished file fileDataCache
  | dir :: rest =>
      let onDiskFilePath := path_join dir requestedFilePath in
      if negb (startsWith onDiskFilePath dir) then traversal fileDataCache
      else
        match stat onDiskFilePath with
        | None => iterateDirectories stat readFileMd5 rest requestedFilePath file fileDataCache
        | Some stats =>
            if negb (fs.isFile stats)
            then iterateDirectories stat readFileMd5 rest requestedFilePath file fileDataCache
            else
              match readFileMd5 onDiskFilePath with
              | None => unreadable fileDataCache
              | Some md5 =>
                  let file := createFileData onDiskFilePath stats md5 in
                  iterateDirectories stat readFileMd5 rest requestedFilePath (Some file)
                    (<[requestedFilePath := file]> fileDataCache)
              end
        end
  end.

Definition acceptsGzip (context : FritterRequest) : bool :=
  match getAccepts_encoding_gzip context with
  | answer_null => false
  | answer_false => true
  | answer _ => true
  end.

Definition shouldGzip (this : FritterStaticMiddleware) (file : File) : bool :=
  enableGzip this && (1024 <? size file) && isCompressible (type file).

Definition validators (this : FritterStaticMiddleware) (file : File) : list ResponseCall :=
  [setStatusCode 200; setLastModified (modifiedDate file); setEntityTag (md5 file)]
  ++ (if enableGzip this then [appendVaryHeaderName "Accept-Encoding"] else []).

Definition entityHeaders (this : FritterStaticMiddleware) (file : File) : list ResponseCall :=
  [setContentType (type file); setContentLength (size file);
   setHeaderValue "Cache-Control" (cacheControlHeader this);
   setHeaderValue "Content-MD5" (md5 file)].

Definition bodyCalls (this : FritterStaticMiddleware) (context : FritterRequest)
    (file : File) : list ResponseCall :=
  let readStream := createReadStream (onDiskFilePath file) in
  setBody readStream ::
  (if acceptsGzip context && shouldGzip this file then
     [removeHeaderValue "Content-Length"; setHeaderValue "Content-Encoding" "gzip";
      setBody (pipe_createGzip readStream)]
   else [setBody readStream]).

(** "Response" *)
Definition response (this : FritterStaticMiddleware) (context : FritterRequest)
    (file : File) : list ResponseCall :=
  if isFresh context (validators this file) then validators this file ++ [setStatusCode 304]
  else if String.eqb (getHttpMethod context) "HEAD"
       then validators this file ++ entityHeaders this file
       else validators this file ++ entityHeaders this file ++ bodyCalls this context file.

(** "Check Method" and "Get Path" *)
Definition getRequestedFilePath (context : FritterRequest) : Outcome + string :=
  if negb (String.eqb (getHttpMethod context) "GET")
     && negb (String.eqb (getHttpMethod context) "HEAD")
  then inl next
  else
    match decodeURIComponent (getPath context) with
    | None => inl rejected
    | Some decoded =>
        let requestedFilePath := path_normalize decoded in
        if String.eqb (path_basename requestedFilePath) "." then inl next
        else inr requestedFilePath
    end.

(** "Get File Data from Cache" and "Load File Data (if not cached)":
    how the handler ends there, or the file and the cache. *)
Definition loadFileData (this : FritterStaticMiddleware) (stat : Stat) (readFileMd5 : ReadFileMd5)
    (fileDataCache : Cache) (requestedFilePath : string) : (Outcome * Cache) + (File * Cache) :=
  match fileDataCache !! requestedFilePath with
  | Some file => inr (file, fileDataCache)
  | None =>
      match iterateDirectories stat readFileMd5 (dirs this) requestedFilePath None fileDataCache with
      | traversal fileDataCache => inl (next, fileDataCache)
      | unreadable fileDataCache => inl (rejected, fileDataCache)
      | finished None fileDataCache => inl (next, fileDataCache)
      | finished (Some file) fileDataCache => inr (file, fileDataCache)
      end
  end.

Definition execute (this : FritterStaticMiddleware) (stat : Stat) (readFileMd5 : ReadFileMd5)
    (fileDataCache : Cache) (context : FritterRequest) : Outcome * Cache :=
  match getRequestedFilePath context with
  | inl outcome => (outcome, fileDataCache)
  | inr requestedFilePath =>
      match loadFileData this stat readFileMd5 fileDataCache requestedFilePath with
      | inl ended => ended
      | inr (file, fileDataCache) =>
          match stat (onDiskFilePath file) with
          | None => (rejected, fileDataCache)
          | Some stats' =>
              if bool_decide (fs.mtimeMs stats' ≠ fs.mtimeMs (stats file)) then
                match readFileMd5 (onDiskFilePath file) with
                | None => (rejected, fileDataCache)
                | Some md5 =>
                    let file' :=
                      {| onDiskFilePath := onDiskFilePath file;
                         md5 := md5;
                         modifiedDate := fs.mtime stats';
                         size := fs.size stats';
                         stats := stats';
                         type := lookupType (onDiskFilePath file) |} in
                    (responded (response this context file'),
                     <[requestedFilePath := file']> fileDataCache)
                end
              else (responded (response this context file), fileDataCache)
          end
      end
  end.

Fixpoint getCacheBustedPath_dirs (statSync : Stat) (dirs : list string) (filePath : string) :
    string :=
  match dirs with
  | [] => filePath
  | dir :: rest =>
      match statSync (path_join dir filePath) with
      | Some stats => filePath ++ "?mtime=" ++ pretty (fs.mtime stats)
      | None => getCacheBustedPath_dirs statSync rest filePath
      end
  end.

Definition getCacheBustedPath (this : FritterStaticMiddleware) (statSync : Stat)
    (fileDataCache : Cache) (filePath : string) : string :=
  match fileDataCache !! filePath with
  | Some file => filePath ++ "?mtime=" ++ Number_toString (fs.mtimeMs (stats file))
  | None => getCacheBustedPath_dirs statSync (dirs this) filePath
  end.

End Middleware.

End V1.

(** ** The earlier class on a POSIX host *)
Module PosixV1.

Definition getRequestedFilePath := @V1.getRequestedFilePath Z Posix.imports Node.posix_normalize.

Definition execute := @V1.execute Z Posix.imports Node.posix_normalize.

(** The digests of a disk given by the list of its readable files. *)
Fixpoint digests (entries : list (string * string)) (p : string) : option string :=
  match entries with
  | [] => None
  | (q, md5) :: rest => if String.eqb p q then Some md5 else digests rest p
  end.

Definition GET (path : string) (encoding : option string) : V1.FritterRequest :=
  {| V1.getHttpMethod := "GET"; V1.getPath := path; V1.isFresh := fun _ => false;
     V1.getAccepts_encoding_gzip := Posix.negotiated encoding |}.

(** Three directories, in the order they are listed. *)
Definition layered : V1.FritterStaticMiddleware :=
  V1.constructor (V1.mkOptions None ["/srv/theme"; "/srv/www"; "/srv/fallback"] None None).

(** A directory followed by one written with "./". *)
Definition withDotSlash : V1.FritterStaticMiddleware :=
  V1.constructor (V1.mkOptions None ["/srv/www"; "./public"] None None).

(** "/srv/www/x.css" and "/srv/fallback/x.css" hold different text. *)
Definition md5s : string → option string :=
  digests [("/srv/www/x.css", "5217c451387ecae56cb932c4c7942b22");
           ("/srv/fallback/x.css", "89601db6c75ac445ee987ecd8a41923a")].

Definition xcssOfWww : V1.FritterStaticMiddlewareFile Z :=
  V1.createFileData "/srv/www/x.css" (Posix.regularFile 1700000000000 2000)
    "5217c451387ecae56cb932c4c7942b22".

Definition xcssOfFallback : V1.FritterStaticMiddlewareFile Z :=
  V1.createFileData "/srv/fallback/x.css" (Posix.regularFile 1600000000000 90)
    "89601db6c75ac445ee987ecd8a41923a".

End PosixV1.

(** ** More configurations and disks for the examples *)
Module MoreExamples.

(** The disk of the examples after "/srv/www/x.css" has been replaced
    by a directory of that name. *)
Definition diskWithDirectory : string → option (fs.Stats Z) :=
  Posix.disk [("/srv/www", Posix.directory 1690000000000);
              ("/srv/www/x.css", Posix.directory 1710000000000)].

(** "/srv/www" mounted under "/assets/", the mount path ending with a
    separator. *)
Definition mountedWithSlash : FritterStaticMiddleware :=
  constructor (mkOptions None [mkDirectory (Some "/assets/") "/srv/www"] None None).

(** A directory written with "./" in front of one given in full. *)
Definition withDotSlash : FritterStaticMiddleware :=
  constructor (mkOptions None
    [mkDirectory None "./public"; mkDirectory None "/srv/www"] None None).

(** Three directories mounted under the same "/assets". *)
Definition sharedMount : FritterStaticMiddleware :=
  constructor (mkOptions None
    [mkDirectory (Some "/assets") "/srv/theme"; mkDirectory (Some "/assets") "/srv/www";
     mkDirectory (Some "/assets") "/srv/fallback"] None None).

(** The same without the first of them. *)
Definition sharedMountTail : FritterStaticMiddleware :=
  constructor (mkOptions None
    [mkDirectory (Some "/assets") "/srv/www";
     mkDirectory (Some "/assets") "/srv/fallback"] None None).

(** A configuration that sets [maxAge] only. *)
Definition withMaxAge : FritterStaticMiddleware :=
  constructor (mkOptions None [mkDirectory None "/srv/www"] None (Some 3600)).

End MoreExamples.

(** ** General properties, for any runtime *)

Section Properties.

Context {number : Type} `{!Imports number}.

Implicit Types (this : FritterStaticMiddleware).
Implicit Types (stat : string → option (fs.Stats number)).
Implicit Types (fileDataCache : gmap string (FritterStaticMiddlewareFile number)).
Implicit Types (context : FritterRequest).
Implicit Types (file : FritterStaticMiddlewareFile number).
Implicit Types (dir : FritterStaticMiddlewareDirectory).
Implicit Types (p q k : string).

(** *** The loop over the directories *)

Lemma iterateDirectories_mismatch stat dir rest p :
  handleMountPoint dir p = None →
  iterateDirectories stat (dir :: rest) p = iterateDirectories stat rest p.
Proof. intros Hm. simpl. by rewrite Hm. Qed.

Lemma iterateDirectories_traversal stat dir rest p q :
  handleMountPoint dir p = Some q →
  startsWith (path_join (path dir) q) (path dir) = false →
  iterateDirectories stat (dir :: rest) p = traversal.
Proof. intros Hm Hg. simpl. by rewrite Hm, Hg. Qed.

Lemma iterateDirectories_skip stat dir rest p q :
  handleMountPoint dir p = Some q →
  startsWith (path_join (path dir) q) (path dir) = true →
  noFileAt stat (path_join (path dir) q) →
  iterateDirectories stat (dir :: rest) p = iterateDirectories stat rest q.
Proof.
  intros Hm Hg Hno. simpl. rewrite Hm, Hg. simpl.
  destruct Hno as [-> | (st & -> & ->)]; reflexivity.
Qed.

Lemma iterateDirectories_found_here stat dir rest p q st :
  handleMountPoint dir p = Some q →
  startsWith (path_join (path dir) q) (path dir) = true →
  stat (path_join (path dir) q) = Some st →
  fs.isFile st = true →
  iterateDirectories stat (dir :: rest) p
  = found q (createFileData (path_join (path dir) q) st).
Proof. intros Hm Hg Hs Hf. simpl. by rewrite Hm, Hg, Hs, Hf. Qed.

Lemma iterateDirectories_Skips stat earlier later p p' :
  Skips stat earlier p p' →
  iterateDirectories stat (earlier ++ later)%list p = iterateDirectories stat later p'.
Proof.
  induction 1 as [p | dir rest p p' Hm _ IH | dir rest p q p' Hm Hg Hs _ IH
                 | dir rest p q st p' Hm Hg Hs Hf _ IH].
  - reflexivity.
  - rewrite <- IH. by apply iterateDirectories_mismatch.
  - rewrite <- IH. apply iterateDirectories_skip; [done .. |]. by left.
  - rewrite <- IH. apply iterateDirectories_skip; [done .. |]. right. eauto.
Qed.

(** A file the loop finds was statted on the way, as a regular file. *)
Lemma iterateDirectories_found_stat stat dirs p k file :
  iterateDirectories stat dirs p = found k file →
  ∃ st, stat (onDiskFilePath file) = Some st ∧ fs.isFile st = true
        ∧ file = createFileData (onDiskFilePath file) st.
Proof.
  revert p. induction dirs as [| dir rest IH]; intros p; simpl; [done |].
  destruct (handleMountPoint dir p) as [q |]; [| by apply IH].
  destruct (startsWith _ _); simpl; [| done].
  destruct (stat (path_join (path dir) q)) as [st |] eqn:Hs; [| by apply IH].
  destruct (fs.isFile st) eqn:Hf; simpl; [| by apply IH].
  intros [= <- <-]. exists st. simpl. done.
Qed.

Lemma checkOnDiskFileModifiedDate_same file st :
  fs.mtimeMs st = fs.mtimeMs (stats file) →
  checkOnDiskFileModifiedDate file st = file.
Proof.
  intros Heq. unfold checkOnDiskFileModifiedDate.
  rewrite bool_decide_eq_false_2; [done |]. by intros Hne.
Qed.

(** *** The three ways through [execute] once the path is known *)

Lemma execute_hit this stat fileDataCache context p file :
  getRequestedFilePath context = inr p →
  fileDataCache !! p = Some file →
  execute this stat fileDataCache context
  = match stat (onDiskFilePath file) with
    | None => (rejected, fileDataCache)
    | Some st =>
        (responded (response this context (checkOnDiskFileModifiedDate file st)),
         if bool_decide (fs.mtimeMs st ≠ fs.mtimeMs (stats file))
         then <[p := checkOnDiskFileModifiedDate file st]> fileDataCache
         else fileDataCache)
    end.
Proof. intros Hp Hc. unfold execute, loadFileData. by rewrite Hp, Hc. Qed.

Lemma execute_miss_found this stat fileDataCache context p k file :
  getRequestedFilePath context = inr p →
  fileDataCache !! p = None →
  iterateDirectories stat (dirs this) p = found k file →
  execute this stat fileDataCache context
  = (responded (response this context file), <[k := file]> fileDataCache).
Proof.
  intros Hp Hc Hit. unfold execute, loadFileData. rewrite Hp, Hc, Hit.
  destruct (iterateDirectories_found_stat _ _ _ _ _ Hit) as (st & Hs & _ & Hfile).
  rewrite Hs.
  assert (Heq : fs.mtimeMs st = fs.mtimeMs (stats file)) by (by rewrite Hfile).
  rewrite (checkOnDiskFileModifiedDate_same _ _ Heq).
  rewrite bool_decide_eq_false_2; [done |]. by intros Hne.
Qed.

Lemma execute_miss_not_found this stat fileDataCache context p :
  getRequestedFilePath context = inr p →
  fileDataCache !! p = None →
  (∀ k file, iterateDirectories stat (dirs this) p ≠ found k file) →
  execute this stat fileDataCache context = (next, fileDataCache).
Proof.
  intros Hp Hc Hit. unfold execute, loadFileData. rewrite Hp, Hc.
  destruct (iterateDirectories stat (dirs this) p) as [| k file |] eqn:E; [done | | done].
  by destruct (Hit k file).
Qed.

Lemma getRequestedFilePath_inl context o :
  getRequestedFilePath context = inl o → o = next ∨ o = rejected.
Proof.
  unfold getRequestedFilePath.
  destruct (_ && _); [intros [= <-]; by left |].
  destruct (decodeURIComponent _); [| intros [= <-]; by right].
  destruct (String.eqb _ _); [intros [= <-]; by left | done].
Qed.

Lemma getRequestedFilePath_inr context p :
  getRequestedFilePath context = inr p →
  getHttpMethod context = "GET" ∨ getHttpMethod context = "HEAD".
Proof.
  unfold getRequestedFilePath.
  destruct (String.eqb (getHttpMethod context) "GET") eqn:Hg.
  - intros _. left. by apply String.eqb_eq.
  - destruct (String.eqb (getHttpMethod context) "HEAD") eqn:Hh; [| done].
    intros _. right. by apply String.eqb_eq.
Qed.

Lemma loadFileData_entry this stat fileDataCache p k file fileDataCache1 :
  loadFileData this stat fileDataCache p = Some (k, file, fileDataCache1) →
  fileDataCache1 !! k = Some file.
Proof.
  unfold loadFileData. destruct (fileDataCache !! p) as [cached |] eqn:Hc.
  - by intros [= <- <- <-].
  - destruct (iterateDirectories stat (dirs this) p) as [| k' file' |]; [done | | done].
    intros [= <- <- <-]. apply lookup_insert_eq.
Qed.

(** Whatever [execute] answers itself is the "Response" section run on
    the entry the cache holds when it returns, for a GET or a HEAD. *)
Lemma execute_responded this stat fileDataCache context calls fileDataCache' :
  execute this stat fileDataCache context = (responded calls, fileDataCache') →
  ∃ k file,
    fileDataCache' !! k = Some file
    ∧ calls = response this context file
    ∧ (getHttpMethod context = "GET" ∨ getHttpMethod context = "HEAD").
Proof.
  unfold execute. intros Hex.
  destruct (getRequestedFilePath context) as [o | p] eqn:Hp.
  { destruct (getRequestedFilePath_inl _ _ Hp) as [-> | ->]; discriminate Hex. }
  pose proof (getRequestedFilePath_inr _ _ Hp) as Hmeth.
  destruct (loadFileData this stat fileDataCache p) as [[[k file] c] |] eqn:Hload; [| done].
  pose proof (loadFileData_entry _ _ _ _ _ _ _ Hload) as Hentry.
  destruct (stat (onDiskFilePath file)) as [st |]; [| done].
  injection Hex as <- <-.
  exists k, (checkOnDiskFileModifiedDate file st). split; [| done].
  unfold checkOnDiskFileModifiedDate. case_bool_decide.
  - apply lookup_insert_eq.
  - done.
Qed.

(** *** Stale cache entries *)

(** C3. When the stat of a cached entry's on-disk path fails, the
    current request fails: the promise returned by [execute] rejects.
    The next handler is not called, and the directories are not
    consulted again: the outcome is the same whatever directories are
    configured, and the cache is left as it was. This differs from a
    path that was never cached and that no directory serves, which goes
    to the next handler. *)
Theorem stale_entry_stat_failure_rejects this stat fileDataCache context p file :
  getRequestedFilePath context = inr p →
  fileDataCache !! p = Some file →
  stat (onDiskFilePath file) = None →
  execute this stat fileDataCache context = (rejected, fileDataCache)
  ∧ (∀ this', execute this' stat fileDataCache context = (rejected, fileDataCache))
  ∧ (∀ fileDataCache0,
       fileDataCache0 !! p = None →
       (∀ k f, iterateDirectories stat (dirs this) p ≠ found k f) →
       execute this stat fileDataCache0 context = (next, fileDataCache0)).
Proof.
  intros Hp Hc Hs. split; [| split].
  - rewrite (execute_hit _ _ _ _ _ _ Hp Hc). by rewrite Hs.
  - intros this'. rewrite (execute_hit _ _ _ _ _ _ Hp Hc). by rewrite Hs.
  - intros c0 Hc0 Hnone. by apply (execute_miss_not_found _ _ _ _ p).
Qed.

(** C5. A request served from a cached entry stats the entry's on-disk
    path first. When the [mtimeMs] observed differs from the one of the
    cached stat snapshot, the entry's modified date, size, content type
    and stat snapshot are replaced, under the same key and with the same
    on-disk path, before the response is built: this very response
    carries the new modification time as Last-Modified and, unless the
    request is fresh, the new size and type. When the [mtimeMs] is the
    same, the entry and the cache are left as they are. *)
Theorem cached_entry_refreshed_when_mtimeMs_differs this stat fileDataCache context p file st :
  getRequestedFilePath context = inr p →
  fileDataCache !! p = Some file →
  stat (onDiskFilePath file) = Some st →
  let file' :=
    {| onDiskFilePath := onDiskFilePath file;
       modifiedDate := fs.mtime st;
       size := fs.size st;
       stats := st;
       type := lookupType (onDiskFilePath file) |} in
  (fs.mtimeMs st ≠ fs.mtimeMs (stats file) →
     execute this stat fileDataCache context
     = (responded (response this context file'), <[p := file']> fileDataCache)
     ∧ In (setLastModified (fs.mtime st)) (response this context file')
     ∧ (isFresh context (validators this file') = false →
          In (setContentLength (fs.size st)) (response this context file')
          ∧ In (setContentType (lookupType (onDiskFilePath file)))
               (response this context file')))
  ∧ (fs.mtimeMs st = fs.mtimeMs (stats file) →
       execute this stat fileDataCache context
       = (responded (response this context file), fileDataCache)).
Proof.
  intros Hp Hc Hs file'. split.
  - intros Hne.
    assert (Hchk : checkOnDiskFileModifiedDate file st = file').
    { unfold checkOnDiskFileModifiedDate. by rewrite bool_decide_eq_true_2. }
    split; [| split].
    + rewrite (execute_hit _ _ _ _ _ _ Hp Hc), Hs, Hchk.
      by rewrite bool_decide_eq_true_2.
    + unfold response, validators.
      destruct (isFresh context _); [simpl; tauto |].
      destruct (String.eqb _ _); simpl; tauto.
    + intros Hfresh. unfold response. rewrite Hfresh.
      destruct (String.eqb _ _); split; apply in_or_app; right; simpl; tauto.
  - intros Heq. rewrite (execute_hit _ _ _ _ _ _ Hp Hc), Hs.
    rewrite (checkOnDiskFileModifiedDate_same _ _ Heq).
    rewrite bool_decide_eq_false_2; [done |]. by intros Hne.
Qed.

(** *** Priority of the directories *)

(** Priority on the path as the loop has it. When every directory
    before one is skipped, and that one, asked for the path as the
    earlier directories left it, stats as a regular file, the loop ends
    there with that file, whatever directories follow, and the request
    is answered from it. A stat failure or a stat of something that is
    not a regular file makes the loop go on with the next directory,
    entered with the path as that directory's mount handling left
    it. *)
Lemma first_regular_file_wins
    this stat fileDataCache context p earlier dir later p' q st :
  dirs this = (earlier ++ dir :: later)%list →
  getRequestedFilePath context = inr p →
  fileDataCache !! p = None →
  Skips stat earlier p p' →
  handleMountPoint dir p' = Some q →
  startsWith (path_join (path dir) q) (path dir) = true →
  stat (path_join (path dir) q) = Some st →
  fs.isFile st = true →
  let file := createFileData (path_join (path dir) q) st in
  iterateDirectories stat (dirs this) p = found q file
  ∧ execute this stat fileDataCache context
    = (responded (response this context file), <[q := file]> fileDataCache)
  ∧ (∀ dir0 rest r r',
       handleMountPoint dir0 r = Some r' →
       startsWith (path_join (path dir0) r') (path dir0) = true →
       noFileAt stat (path_join (path dir0) r') →
       iterateDirectories stat (dir0 :: rest) r = iterateDirectories stat rest r').
Proof.
  intros Hdirs Hp Hc Hskips Hm Hg Hs Hf file.
  assert (Hit : iterateDirectories stat (dirs this) p = found q file).
  { rewrite Hdirs, (iterateDirectories_Skips _ _ _ _ _ Hskips).
    by apply iterateDirectories_found_here. }
  split; [done | split].
  - by apply (execute_miss_found _ _ _ _ p).
  - intros dir0 rest r r'. apply iterateDirectories_skip.
Qed.

(** *** The traversal guard, as far as it goes *)

(** A candidate that does not start with its directory's path ends the
    loop: the request goes to the next handler, whatever directories
    follow, and nothing is cached. *)
Lemma traversal_goes_to_next
    this stat fileDataCache context p earlier dir later p' q :
  dirs this = (earlier ++ dir :: later)%list →
  getRequestedFilePath context = inr p →
  fileDataCache !! p = None →
  Skips stat earlier p p' →
  handleMountPoint dir p' = Some q →
  startsWith (path_join (path dir) q) (path dir) = false →
  iterateDirectories stat (dirs this) p = traversal
  ∧ execute this stat fileDataCache context = (next, fileDataCache).
Proof.
  intros Hdirs Hp Hc Hskips Hm Hg.
  assert (Hit : iterateDirectories stat (dirs this) p = traversal).
  { rewrite Hdirs, (iterateDirectories_Skips _ _ _ _ _ Hskips).
    by apply (iterateDirectories_traversal _ _ _ _ q). }
  split; [done |].
  apply (execute_miss_not_found _ _ _ _ p); [done .. |].
  intros k file. by rewrite Hit.
Qed.

(** Every file the loop finds has the path of one of the directories
    as a string prefix of its on-disk path. *)
Lemma found_file_starts_with_a_directory stat dirs p k file :
  iterateDirectories stat dirs p = found k file →
  ∃ dir, In dir dirs ∧ startsWith (onDiskFilePath file) (path dir) = true.
Proof.
  revert p. induction dirs as [| dir rest IH]; intros p; simpl; [done |].
  assert (Hrest : ∀ r, iterateDirectories stat rest r = found k file →
            ∃ dir0, (dir = dir0 ∨ In dir0 rest)
                    ∧ startsWith (onDiskFilePath file) (path dir0) = true).
  { intros r Hr. destruct (IH r Hr) as (dir0 & Hin & Hpre). eauto. }
  destruct (handleMountPoint dir p) as [q |]; [| by apply Hrest].
  destruct (startsWith (path_join (path dir) q) (path dir)) eqn:Hg; simpl; [| done].
  destruct (stat (path_join (path dir) q)) as [st |]; [| by apply Hrest].
  destruct (fs.isFile st); simpl; [| by apply Hrest].
  intros [= <- <-]. exists dir. simpl. auto.
Qed.

(** *** [getCacheBustedPath] where it keeps the path *)

Lemma getCacheBustedPath_cached this stat fileDataCache p file :
  fileDataCache !! p = Some file →
  getCacheBustedPath this stat fileDataCache p
  = p ++ "?mtime=" ++ Number_toString (fs.mtimeMs (stats file)).
Proof. intros Hc. unfold getCacheBustedPath. by rewrite Hc. Qed.

Lemma getCacheBustedPath_dirs_unmounted stat dirs p :
  Forall (λ dir, mountPath dir = None) dirs →
  getCacheBustedPath_dirs stat dirs p = p
  ∨ ∃ dir st, In dir dirs ∧ stat (path_join (path dir) p) = Some st
              ∧ getCacheBustedPath_dirs stat dirs p = p ++ "?mtime=" ++ pretty (fs.mtime st).
Proof.
  induction 1 as [| dir rest Hnone _ IH]; simpl; [by left |].
  unfold handleMountPoint. rewrite Hnone.
  destruct (stat (path_join (path dir) p)) as [st |] eqn:Hs.
  - right. exists dir, st. auto.
  - destruct IH as [-> | (dir0 & st & Hin & Hs0 & ->)]; [by left |].
    right. exists dir0, st. auto.
Qed.

(** *** The path variable through the loop *)

(** C10. Stripping a mount prefix changes the path for the rest of the
    resolution. Let the first directory declare a [mountPath] that is a
    prefix of the path [p], and let [q] be [p] without that prefix.
    - In [execute], when that directory yields no file (stat failure or
      not a regular file), the remaining directories are run on [q],
      not on [p]; whatever file is then found is stored in the cache
      under the key the loop ends with, computed from [q]; a file found
      in that first directory is stored under [q].
    - In [getCacheBustedPath], for a path that is not cached, a failing
      stat passes [q] on to the remaining directories, a successful one
      returns [q] with the query string, and when the directories are
      used up the path returned is the one stripped so far. *)
Theorem mount_prefix_stripping_is_cumulative
    this stat fileDataCache context p dir m rest :
  dirs this = dir :: rest →
  mountPath dir = Some m →
  startsWith p m = true →
  let q := slice p (String.length m) in
  let onDiskFilePath := path_join (path dir) q in
  (startsWith onDiskFilePath (path dir) = true →
   noFileAt stat onDiskFilePath →
     iterateDirectories stat (dir :: rest) p = iterateDirectories stat rest q
     ∧ (getRequestedFilePath context = inr p →
        fileDataCache !! p = None →
        ∀ k file,
          iterateDirectories stat rest q = found k file →
          execute this stat fileDataCache context
          = (responded (response this context file), <[k := file]> fileDataCache)))
  ∧ (startsWith onDiskFilePath (path dir) = true →
     ∀ st, stat onDiskFilePath = Some st → fs.isFile st = true →
       getRequestedFilePath context = inr p →
       fileDataCache !! p = None →
       execute this stat fileDataCache context
       = (responded (response this context (createFileData onDiskFilePath st)),
          <[q := createFileData onDiskFilePath st]> fileDataCache))
  ∧ (fileDataCache !! p = None →
       (stat onDiskFilePath = None →
          getCacheBustedPath this stat fileDataCache p
          = getCacheBustedPath_dirs stat rest q)
       ∧ (∀ st, stat onDiskFilePath = Some st →
            getCacheBustedPath this stat fileDataCache p
            = q ++ "?mtime=" ++ pretty (fs.mtime st)))
  ∧ getCacheBustedPath_dirs stat [] q = q.
Proof.
  intros Hdirs Hmount Hstarts q onDisk.
  assert (Hm : handleMountPoint dir p = Some q).
  { unfold handleMountPoint. by rewrite Hmount, Hstarts. }
  split; [| split; [| split]].
  - intros Hg Hno.
    assert (Hstep : iterateDirectories stat (dir :: rest) p = iterateDirectories stat rest q)
      by (by apply iterateDirectories_skip).
    split; [done |].
    intros Hp Hc k file Hfound.
    apply (execute_miss_found _ _ _ _ p); [done .. |].
    by rewrite Hdirs, Hstep.
  - intros Hg st Hs Hf Hp Hc.
    apply (execute_miss_found _ _ _ _ p); [done .. |].
    rewrite Hdirs. by apply iterateDirectories_found_here.
  - intros Hc. unfold getCacheBustedPath. rewrite Hc, Hdirs. simpl. rewrite Hm.
    fold q. fold onDisk. split.
    + by intros ->.
    + by intros st ->.
  - reflexivity.
Qed.

(** *** The response *)

(** The file a response is built from, and the fact that the method
    matters to the response only. *)
Lemma execute_responded_file this stat fileDataCache context calls fileDataCache' :
  execute this stat fileDataCache context = (responded calls, fileDataCache') →
  ∃ p file,
    getRequestedFilePath context = inr p
    ∧ calls = response this context file
    ∧ ∀ context',
        getRequestedFilePath context' = inr p →
        execute this stat fileDataCache context'
        = (responded (response this context' file), fileDataCache').
Proof.
  unfold execute. intros Hex.
  destruct (getRequestedFilePath context) as [o | p] eqn:Hp.
  { destruct (getRequestedFilePath_inl _ _ Hp) as [-> | ->]; discriminate Hex. }
  destruct (loadFileData this stat fileDataCache p) as [[[k file] c] |] eqn:Hload; [| done].
  destruct (stat (onDiskFilePath file)) as [st |] eqn:Hs; [| done].
  injection Hex as <- <-.
  exists p, (checkOnDiskFileModifiedDate file st). split; [done | split; [done |]].
  intros context' ->. by rewrite Hload, Hs.
Qed.

Lemma run_calls_app calls calls' :
  run_calls (calls ++ calls') = fold_left run_call calls' (run_calls calls).
Proof. unfold run_calls. apply fold_left_app. Qed.

Lemma run_calls_validators this file :
  run_calls (validators this file)
  = {| statusCode := Some 200; lastModified := Some (modifiedDate file);
       varyHeaderNames := if enableGzip this then ["Accept-Encoding"] else [];
       contentType := None; contentLength := None; headerValues := ∅; body := None |}.
Proof. unfold validators. by destruct (enableGzip this). Qed.

Lemma run_calls_entityHeaders this file :
  run_calls (validators this file ++ entityHeaders this file)
  = {| statusCode := Some 200; lastModified := Some (modifiedDate file);
       varyHeaderNames := if enableGzip this then ["Accept-Encoding"] else [];
       contentType := Some (type file); contentLength := Some (size file);
       headerValues := {["Cache-Control" := cacheControlHeader this]}; body := None |}.
Proof. rewrite run_calls_app, run_calls_validators. reflexivity. Qed.

Lemma response_fresh this context file :
  isFresh context (validators this file) = true →
  response this context file = (validators this file ++ [setStatusCode 304])%list.
Proof. unfold response. by intros ->. Qed.

Lemma response_HEAD this context file :
  isFresh context (validators this file) = false →
  getHttpMethod context = "HEAD" →
  response this context file = (validators this file ++ entityHeaders this file)%list.
Proof. unfold response. by intros -> ->. Qed.

Lemma response_GET this context file :
  isFresh context (validators this file) = false →
  getHttpMethod context = "GET" →
  response this context file
  = ((validators this file ++ entityHeaders this file) ++ bodyCalls this context file)%list.
Proof.
  unfold response. intros -> ->.
  change (String.eqb "GET" "HEAD") with false. cbv iota. apply app_assoc.
Qed.

Lemma run_calls_response_GET this context file :
  isFresh context (validators this file) = false →
  getHttpMethod context = "GET" →
  run_calls (response this context file)
  = if acceptsGzip context && shouldGzip this file then
      {| statusCode := Some 200; lastModified := Some (modifiedDate file);
         varyHeaderNames := if enableGzip this then ["Accept-Encoding"] else [];
         contentType := Some (type file); contentLength := None;
         headerValues :=
           <["Content-Encoding" := "gzip"]>
             (delete "Content-Length" {["Cache-Control" := cacheControlHeader this]});
         body := Some (pipe_createGzip (createReadStream (onDiskFilePath file))) |}
    else
      {| statusCode := Some 200; lastModified := Some (modifiedDate file);
         varyHeaderNames := if enableGzip this then ["Accept-Encoding"] else [];
         contentType := Some (type file); contentLength := Some (size file);
         headerValues := {["Cache-Control" := cacheControlHeader this]};
         body := Some (createReadStream (onDiskFilePath file)) |}.
Proof.
  intros Hfresh Hget. rewrite (response_GET _ _ _ Hfresh Hget).
  rewrite run_calls_app, run_calls_entityHeaders. unfold bodyCalls.
  by destruct (acceptsGzip context && shouldGzip this file).
Qed.

(** C6. When [execute] answers a GET or HEAD request, it does so from
    the entry the cache then holds for the file. When the request is
    fresh, the status is 304 and the handler ends there: no
    body, no content type, no content length, no Cache-Control (no
    named header at all). When the request is not fresh, the status is
    200, the content type, the content length and Cache-Control are
    set (the three calls are made, content type and Cache-Control are
    in the final response), and a GET has a body attached while a HEAD
    has none. *)
Theorem conditional_response this stat fileDataCache context calls fileDataCache' :
  execute this stat fileDataCache context = (responded calls, fileDataCache') →
  ∃ k file,
    fileDataCache' !! k = Some file
    ∧ calls = response this context file
    ∧ (getHttpMethod context = "GET" ∨ getHttpMethod context = "HEAD")
    ∧ let r := run_calls calls in
      if isFresh context (validators this file) then
        statusCode r = Some 304 ∧ body r = None ∧ contentType r = None
        ∧ contentLength r = None ∧ headerValues r = ∅
        ∧ calls = (validators this file ++ [setStatusCode 304])%list
      else
        statusCode r = Some 200
        ∧ In (setContentType (type file)) calls
        ∧ In (setContentLength (size file)) calls
        ∧ In (setHeaderValue "Cache-Control" (cacheControlHeader this)) calls
        ∧ contentType r = Some (type file)
        ∧ headerValues r !! "Cache-Control" = Some (cacheControlHeader this)
        ∧ (getHttpMethod context = "GET" → is_Some (body r))
        ∧ (getHttpMethod context = "HEAD" → body r = None).
Proof.
  intros Hex. destruct (execute_responded _ _ _ _ _ _ Hex) as (k & file & Hk & -> & Hmeth).
  exists k, file. split; [done | split; [done | split; [done |]]]. cbv zeta.
  destruct (isFresh context (validators this file)) eqn:Hfresh.
  - rewrite (response_fresh _ _ _ Hfresh), run_calls_app, run_calls_validators.
    simpl. done.
  - assert (Hin : ∀ c, In c (entityHeaders this file) → In c (response this context file)).
    { intros c Hc. unfold response. rewrite Hfresh.
      destruct (String.eqb _ _); apply in_or_app; right; [done |].
      apply in_or_app. by left. }
    assert (Hcc : ∀ m : gmap string string,
               <["Content-Encoding" := "gzip"]>
                 (delete "Content-Length" (<["Cache-Control" := cacheControlHeader this]> m))
               !! "Cache-Control" = Some (cacheControlHeader this)).
    { intros m. rewrite lookup_insert_ne by done.
      rewrite lookup_delete_ne by done. apply lookup_insert_eq. }
    destruct Hmeth as [Hget | Hhead].
    + pose proof (run_calls_response_GET _ _ _ Hfresh Hget) as Hrun.
      destruct (acceptsGzip context && shouldGzip this file); rewrite Hrun; simpl.
      * split_and!; [done | by apply Hin; simpl; tauto .. | done | apply Hcc | done |].
        rewrite Hget. discriminate.
      * split_and!; [done | by apply Hin; simpl; tauto .. | done | | done |].
        -- apply lookup_insert_eq.
        -- rewrite Hget. discriminate.
    + pose proof (response_HEAD _ _ _ Hfresh Hhead) as Hresp.
      pose proof (run_calls_entityHeaders this file) as Hrun.
      rewrite <- Hresp in Hrun. rewrite Hrun. simpl.
      split_and!; [done | by apply Hin; simpl; tauto .. | done | | | done].
      * apply lookup_insert_eq.
      * rewrite Hhead. discriminate.
Qed.

(** The compression decision as the handler takes it. For a GET that
    is answered with a body, gzip is applied exactly when gzip is
    enabled, the file's size exceeds 1024, its type is compressible and
    the negotiator's answer is not [null]; an answer of [false] passes
    that test. When gzip is applied, the content length set before is
    removed, Content-Encoding is "gzip" and the body is the read stream
    of the file piped through a gzip compressor. Otherwise the body is
    the read stream itself, the content length is the size of the file
    and no Content-Encoding is set. *)
Lemma compression_decision this stat fileDataCache context calls fileDataCache' :
  execute this stat fileDataCache context = (responded calls, fileDataCache') →
  getHttpMethod context = "GET" →
  ∃ k file,
    fileDataCache' !! k = Some file
    ∧ calls = response this context file
    ∧ (isFresh context (validators this file) = false →
       let r := run_calls calls in
       let readStream := createReadStream (onDiskFilePath file) in
       let gzip := acceptsGzip context && shouldGzip this file in
       (gzip = true ↔
          enableGzip this = true ∧ 1024 < size file
          ∧ isCompressible (type file) = true
          ∧ getAccepts_encoding_gzip context ≠ answer_null)
       ∧ In (setContentLength (size file)) calls
       ∧ if gzip then
           In (removeHeaderValue "Content-Length") calls
           ∧ contentLength r = None
           ∧ headerValues r !! "Content-Encoding" = Some "gzip"
           ∧ body r = Some (pipe_createGzip readStream)
         else
           contentLength r = Some (size file)
           ∧ headerValues r !! "Content-Encoding" = None
           ∧ body r = Some readStream).
Proof.
  intros Hex Hget. destruct (execute_responded _ _ _ _ _ _ Hex) as (k & file & Hk & -> & _).
  exists k, file. split; [done | split; [done |]]. intros Hfresh. cbv zeta.
  pose proof (run_calls_response_GET _ _ _ Hfresh Hget) as Hrun.
  pose proof (response_GET _ _ _ Hfresh Hget) as Hresp.
  split; [| split].
  - unfold acceptsGzip, shouldGzip.
    rewrite !andb_true_iff, Z.ltb_lt.
    destruct (getAccepts_encoding_gzip context) as [| | e].
    + split; [intros [[=] _] | intros (_ & _ & _ & Hne); done].
    + split; [intros (_ & (Hg & Hs) & Hc); done | intros (Hg & Hs & Hc & _); done].
    + split; [intros (_ & (Hg & Hs) & Hc); done | intros (Hg & Hs & Hc & _); done].
  - rewrite Hresp. apply in_or_app. left. apply in_or_app. right. simpl. tauto.
  - destruct (acceptsGzip context && shouldGzip this file) eqn:Hgz; rewrite Hrun; simpl.
    + split_and!; [| done | apply lookup_insert_eq | done].
      rewrite Hresp. apply in_or_app. right. unfold bodyCalls. rewrite Hgz. simpl. tauto.
    + split_and!; [done | | done].
      by apply lookup_singleton_ne.
Qed.

(** C8, as amended. A HEAD request for an existing file makes exactly
    the status and header calls the same request makes as a GET before
    it attaches a body (status, Last-Modified, Vary when gzip is
    enabled, and, unless the request is fresh, content type, content
    length and Cache-Control), and attaches no body; the cache ends up
    the same. The final status and headers of the two responses are
    equal whenever the GET is not gzip-encoded. When the GET is
    gzip-encoded, it goes on to remove the content length and to set
    Content-Encoding, which the HEAD does not: the HEAD response keeps
    the content length and has no Content-Encoding. *)
Theorem head_makes_the_header_calls_of_get
    this stat fileDataCache context calls fileDataCache' :
  getHttpMethod context = "HEAD" →
  execute this stat fileDataCache context = (responded calls, fileDataCache') →
  ∃ file getCalls,
    execute this stat fileDataCache (withHttpMethod "GET" context)
    = (responded getCalls, fileDataCache')
    ∧ calls = response this context file
    ∧ body (run_calls calls) = None
    ∧ if isFresh context (validators this file) then getCalls = calls
      else
        getCalls = (calls ++ bodyCalls this context file)%list
        ∧ if acceptsGzip context && shouldGzip this file then
            headersOf (run_calls getCalls)
            = headersOf (run_call (run_call (run_calls calls)
                                     (removeHeaderValue "Content-Length"))
                           (setHeaderValue "Content-Encoding" "gzip"))
            ∧ contentLength (run_calls calls) = Some (size file)
            ∧ contentLength (run_calls getCalls) = None
            ∧ headerValues (run_calls calls) !! "Content-Encoding" = None
            ∧ headerValues (run_calls getCalls) !! "Content-Encoding" = Some "gzip"
          else headersOf (run_calls getCalls) = headersOf (run_calls calls).
Proof.
  intros Hhead Hex.
  destruct (execute_responded_file _ _ _ _ _ _ Hex) as (p & file & Hp & -> & Hany).
  set (get := withHttpMethod "GET" context).
  assert (Hpget : getRequestedFilePath get = inr p).
  { revert Hp. unfold getRequestedFilePath, get. simpl. by rewrite Hhead. }
  exists file, (response this get file).
  split; [by apply Hany | split; [done |]].
  destruct (isFresh context (validators this file)) eqn:Hfresh.
  - rewrite (response_fresh _ _ _ Hfresh), run_calls_app, run_calls_validators.
    split; [done |]. by apply response_fresh.
  - assert (Hget : response this get file
                   = ((validators this file ++ entityHeaders this file)
                      ++ bodyCalls this context file)%list)
      by exact (response_GET this get file Hfresh eq_refl).
    pose proof (run_calls_response_GET this get file Hfresh eq_refl) as Hrun.
    change (acceptsGzip get) with (acceptsGzip context) in Hrun.
    pose proof (response_HEAD _ _ _ Hfresh Hhead) as Hresp.
    pose proof (run_calls_entityHeaders this file) as Hhd.
    rewrite <- Hresp in Hhd. rewrite <- Hresp in Hget.
    split; [by rewrite Hhd | split; [done |]].
    rewrite Hrun, Hhd.
    destruct (acceptsGzip context && shouldGzip this file); simpl; [| done].
    split_and!; [done | done | done | by apply lookup_singleton_ne | apply lookup_insert_eq].
Qed.

End Properties.

(** ** Runs of the middleware on a POSIX host *)

Section Runs.

Import Examples.

Example normalize_keeps_dot_dot_inside_a_segment :
  Node.posix_normalize "/assets../www-secret/key.txt" = "/assets../www-secret/key.txt"
  ∧ Node.posix_normalize "/assets/../www-secret/key.txt" = "/www-secret/key.txt"
  ∧ Node.posix_normalize "../a/../../b/./c/" = "../../b/c/"
  ∧ Node.posix_normalize "" = ".".
Proof. repeat split; reflexivity. Qed.

Example join_resolves_dot_dot :
  Node.posix_join "/srv/www" "../www-secret/key.txt" = "/srv/www-secret/key.txt"
  ∧ Node.posix_join "/srv/www" "/x.css" = "/srv/www/x.css"
  ∧ Node.posix_join "./public" "/x.css" = "public/x.css".
Proof. repeat split; reflexivity. Qed.

Example decodeURIComponent_examples :
  Node.decodeURIComponent "/a%20b/..%2fx" = Some "/a b/../x"
  ∧ Node.decodeURIComponent "/a%E0%A4%A" = None
  ∧ Node.decodeURIComponent "/a%C0%80" = None.
Proof. repeat split; reflexivity. Qed.

(** The guard does its work when the escape leaves the root's name
    behind: the request goes to the next handler. *)
Example traversal_to_another_directory_goes_to_next :
  Posix.execute mounted disk ∅ (Posix.GET "/assets../fallback/x.css" None) = (next, ∅).
Proof. vm_compute. reflexivity. Qed.

(** C1. A run on which the guard lets a request out of the root. The
    directory "/srv/www" is mounted under "/assets" and has a sibling
    "/srv/www-secret". The path "/assets../www-secret/key.txt" is
    already normal, starts with the mount path, and is stripped to
    "../www-secret/key.txt"; joined to the root it gives
    "/srv/www-secret/key.txt", which has "/srv/www" as a string prefix
    although it is not inside "/srv/www". The file is served. *)
Theorem traversal_guard_passes_sibling_of_root :
  getRequestedFilePath (Posix.GET "/assets../www-secret/key.txt" None)
  = inr "/assets../www-secret/key.txt"
  ∧ handleMountPoint (mkDirectory (Some "/assets") "/srv/www") "/assets../www-secret/key.txt"
    = Some "../www-secret/key.txt"
  ∧ path_join "/srv/www" "../www-secret/key.txt" = "/srv/www-secret/key.txt"
  ∧ startsWith "/srv/www-secret/key.txt" "/srv/www" = true
  ∧ Posix.inside "/srv/www" "/srv/www-secret/key.txt" = false
  ∧ fst (Posix.execute mounted disk ∅ (Posix.GET "/assets../www-secret/key.txt" None))
    = responded
        [setStatusCode 200; setLastModified 1700000000000;
         appendVaryHeaderName "Accept-Encoding";
         setContentType "text/plain"; setContentLength 20;
         setHeaderValue "Cache-Control" "public, max-age=0";
         setBody (createReadStream "/srv/www-secret/key.txt");
         setBody (createReadStream "/srv/www-secret/key.txt")].
Proof. repeat split; vm_compute; reflexivity. Qed.

(** C2. A run on which the entry is stored under the stripped path.
    After a first GET of "/assets/x.css" the cache has no entry for
    "/assets/x.css" and has the entry under "/x.css": the same request
    misses again and walks the directories again, while a GET of
    "/x.css", which no mount serves (it goes to the next handler on an
    empty cache), is now answered from that entry. *)
Theorem cache_entry_is_keyed_by_stripped_path :
  let first := Posix.execute mounted disk ∅ (Posix.GET "/assets/x.css" None) in
  getRequestedFilePath (Posix.GET "/assets/x.css" None) = inr "/assets/x.css"
  ∧ first = (responded (response mounted (Posix.GET "/assets/x.css" None) xcss),
             <["/x.css" := xcss]> ∅)
  ∧ snd first !! "/assets/x.css" = None
  ∧ snd first !! "/x.css" = Some xcss
  ∧ loadFileData mounted disk (snd first) "/assets/x.css"
    = Some ("/x.css", xcss, <["/x.css" := xcss]> (snd first))
  ∧ Posix.execute mounted disk ∅ (Posix.GET "/x.css" None) = (next, ∅)
  ∧ Posix.execute mounted disk (snd first) (Posix.GET "/x.css" None)
    = (responded (response mounted (Posix.GET "/x.css" None) xcss), snd first).
Proof. repeat split; vm_compute; reflexivity. Qed.

(** C9. Runs on which [getCacheBustedPath] does not return the path it
    was given. With "/srv/www" mounted under "/assets" and nothing
    cached, "/assets/x.css" comes back as "/x.css?mtime=..." and a path
    that no mount serves, "/assets/missing.css", comes back as
    "/missing.css". Without a mount path the given path is kept. *)
Theorem getCacheBustedPath_returns_stripped_path :
  Posix.getCacheBustedPath mounted disk ∅ "/assets/x.css" = "/x.css?mtime=1700000000000"
  ∧ Posix.getCacheBustedPath mounted disk ∅ "/assets/missing.css" = "/missing.css"
  ∧ Posix.getCacheBustedPath site disk ∅ "/x.css" = "/x.css?mtime=1700000000000"
  ∧ Posix.getCacheBustedPath site disk ∅ "/missing.css" = "/missing.css".
Proof. repeat split; vm_compute; reflexivity. Qed.

(** C4. A run on which the first directory that holds the file is not
    served. Three directories are mounted under "/assets"; "/srv/theme"
    has no "x.css", "/srv/www" and "/srv/fallback" each have one. For
    GET "/assets/x.css" the first directory strips the prefix and its
    stat fails; the path is "/x.css" from then on, which does not start
    with "/assets", so the second and the third directory are passed
    over by their own mount test and the request goes to the next
    handler. Asked for the request path itself, the second directory
    has a regular file for it, and without the first directory in front
    it is the one served. *)
Theorem shared_mount_path_hides_later_directories :
  let www := mkDirectory (Some "/assets") "/srv/www" in
  let context := Posix.GET "/assets/x.css" None in
  getRequestedFilePath context = inr "/assets/x.css"
  ∧ handleMountPoint www "/assets/x.css" = Some "/x.css"
  ∧ disk (path_join (path www) "/x.css") = Some (Posix.regularFile 1700000000000 2000)
  ∧ disk (path_join "/srv/theme" "/x.css") = None
  ∧ handleMountPoint www "/x.css" = None
  ∧ iterateDirectories disk (dirs MoreExamples.sharedMount) "/assets/x.css"
    = exhausted "/x.css"
  ∧ Posix.execute MoreExamples.sharedMount disk ∅ context = (next, ∅)
  ∧ Posix.execute MoreExamples.sharedMountTail disk ∅ context
    = (responded (response MoreExamples.sharedMountTail context xcss),
       {["/x.css" := xcss]}).
Proof. repeat split; vm_compute; reflexivity. Qed.

(** C7. A run on which gzip is applied for a client that does not
    accept it. "/srv/www/x.css" has 2000 bytes of "text/css" and gzip is
    enabled. The negotiator answers [false] for this client; [false] is
    not [null], so the handler takes the client to accept gzip, removes
    the content length, sets Content-Encoding to "gzip" and pipes the
    body through the compressor. *)
Theorem gzip_is_applied_for_a_client_that_refuses_it :
  let context := Posix.GET "/x.css" None in
  getAccepts_encoding_gzip context = answer_false
  ∧ acceptsGzip context = true
  ∧ Posix.execute site disk ∅ context
    = (responded
         [setStatusCode 200; setLastModified 1700000000000;
          appendVaryHeaderName "Accept-Encoding";
          setContentType "text/css"; setContentLength 2000;
          setHeaderValue "Cache-Control" "public, max-age=0";
          setBody (createReadStream "/srv/www/x.css");
          removeHeaderValue "Content-Length";
          setHeaderValue "Content-Encoding" "gzip";
          setBody (pipe_createGzip (createReadStream "/srv/www/x.css"))],
       {["/x.css" := xcss]})
  ∧ headerValues (run_calls (response site context xcss)) !! "Content-Encoding"
    = Some "gzip".
Proof. repeat split; vm_compute; reflexivity. Qed.

(** *** Instances of the general theorems *)

Ltac run := vm_compute; reflexivity.

(** "/srv/www/x.css" was cached and is gone, while "/srv/fallback"
    still has an "x.css" that a fresh resolution would find. *)
Lemma stale_entry_stat_failure_rejects_witness :
  let onlyFallback :=
    Posix.disk [("/srv/fallback/x.css", Posix.regularFile 1600000000000 90)] in
  iterateDirectories onlyFallback (dirs layered) "/x.css"
  = found "/x.css"
      (createFileData "/srv/fallback/x.css" (Posix.regularFile 1600000000000 90))
  ∧ Posix.execute layered onlyFallback {["/x.css" := xcss]} (Posix.GET "/x.css" None)
    = (rejected, {["/x.css" := xcss]}).
Proof.
  intros onlyFallback. split; [run |].
  apply (stale_entry_stat_failure_rejects layered onlyFallback {["/x.css" := xcss]}
           (Posix.GET "/x.css" None) "/x.css" xcss); run.
Defined.

Lemma first_regular_file_wins_witness :
  disk "/srv/theme/x.css" = None
  ∧ disk "/srv/fallback/x.css" = Some (Posix.regularFile 1600000000000 90)
  ∧ Posix.execute layered disk ∅ (Posix.GET "/x.css" None)
    = (responded (response layered (Posix.GET "/x.css" None) xcss), {["/x.css" := xcss]}).
Proof.
  split; [run | split; [run |]].
  refine (proj1 (proj2 (first_regular_file_wins layered disk ∅ (Posix.GET "/x.css" None)
    "/x.css" [mkDirectory None "/srv/theme"] (mkDirectory None "/srv/www")
    [mkDirectory None "/srv/fallback"] "/x.css" "/x.css"
    (Posix.regularFile 1700000000000 2000) _ _ _ _ _ _ _ _))); try run.
  apply (skips_stat_failure _ _ _ _ "/x.css"); [run | run | run | apply skips_nil].
Defined.

Lemma cached_entry_refreshed_when_mtimeMs_differs_witness :
  fs.mtimeMs (stats xcssBefore) = 1690000000000
  ∧ size xcssBefore = 1500
  ∧ Posix.execute site disk {["/x.css" := xcssBefore]} (Posix.GET "/x.css" None)
    = (responded (response site (Posix.GET "/x.css" None) xcss), {["/x.css" := xcss]}).
Proof.
  split; [run | split; [run |]].
  destruct (cached_entry_refreshed_when_mtimeMs_differs site disk {["/x.css" := xcssBefore]}
              (Posix.GET "/x.css" None) "/x.css" xcssBefore
              (Posix.regularFile 1700000000000 2000)) as [Hdiff _]; [run .. |].
  destruct Hdiff as [Hex _]; [vm_compute; discriminate |].
  etransitivity; [exact Hex | run].
Defined.

Lemma conditional_response_witness :
  let context := Posix.GET "/x.css" (Some "gzip") in
  Posix.execute site disk ∅ context
  = (responded (response site context xcss), {["/x.css" := xcss]})
  ∧ ∃ file, response site context xcss = response site context file
            ∧ statusCode (run_calls (response site context xcss)) = Some 200.
Proof.
  intros context.
  assert (Hex : Posix.execute site disk ∅ context
                = (responded (response site context xcss), {["/x.css" := xcss]})) by run.
  split; [exact Hex |].
  destruct (conditional_response site disk ∅ context _ _ Hex)
    as (k & file & _ & Hcalls & _ & Hr).
  exists file. split; [exact Hcalls |].
  change (isFresh context (validators site file)) with false in Hr.
  exact (proj1 Hr).
Defined.

Lemma compression_decision_witness :
  let context := Posix.GET "/x.css" (Some "gzip") in
  Posix.execute site disk ∅ context
  = (responded (response site context xcss), {["/x.css" := xcss]})
  ∧ ∃ file, response site context xcss = response site context file
            ∧ In (setContentLength (size file)) (response site context xcss).
Proof.
  intros context.
  assert (Hex : Posix.execute site disk ∅ context
                = (responded (response site context xcss), {["/x.css" := xcss]})) by run.
  split; [exact Hex |].
  destruct (compression_decision site disk ∅ context _ _ Hex eq_refl)
    as (k & file & _ & Hcalls & Hr).
  exists file. split; [exact Hcalls |].
  exact (proj1 (proj2 (Hr eq_refl))).
Defined.

Lemma head_makes_the_header_calls_of_get_witness :
  let context := Posix.HEAD "/x.css" (Some "gzip") in
  Posix.execute site disk ∅ context
  = (responded (response site context xcss), {["/x.css" := xcss]})
  ∧ ∃ file getCalls,
      Posix.execute site disk ∅ (withHttpMethod "GET" context)
      = (responded getCalls, {["/x.css" := xcss]})
      ∧ response site context xcss = response site context file
      ∧ body (run_calls (response site context xcss)) = None.
Proof.
  intros context.
  assert (Hex : Posix.execute site disk ∅ context
                = (responded (response site context xcss), {["/x.css" := xcss]})) by run.
  split; [exact Hex |].
  destruct (head_makes_the_header_calls_of_get site disk ∅ context _ _ eq_refl Hex)
    as (file & getCalls & Hget & Hcalls & Hbody & _).
  exists file, getCalls. split; [exact Hget | split; [exact Hcalls | exact Hbody]].
Defined.

(** "/assets/x.css" is not in "/srv/theme"; the second directory is
    then asked for "/x.css", and what it finds is cached under
    "/x.css", although it also holds "/srv/www/assets/x.css". *)
Lemma mount_prefix_stripping_is_cumulative_witness :
  let context := Posix.GET "/assets/x.css" None in
  disk "/srv/www/assets/x.css" = Some (Posix.regularFile 1700000000000 700)
  ∧ iterateDirectories disk (dirs overlay) "/assets/x.css"
    = iterateDirectories disk [mkDirectory None "/srv/www"] "/x.css"
  ∧ Posix.execute overlay disk ∅ context
    = (responded (response overlay context xcss), {["/x.css" := xcss]}).
Proof.
  intros context. split; [run |].
  destruct (mount_prefix_stripping_is_cumulative overlay disk ∅ context "/assets/x.css"
              (mkDirectory (Some "/assets") "/srv/theme") "/assets"
              [mkDirectory None "/srv/www"]) as [Hloop _]; [run .. |].
  destruct Hloop as [Hstep Hkey]; [run | left; run |].
  split; [exact Hstep |].
  apply Hkey; run.
Defined.

(** C8, a run against the claim as stated. "/srv/www/x.css" has 2000
    bytes of "text/css" and the client accepts gzip: the HEAD response
    has content length 2000 and no Content-Encoding, the GET response
    has no content length and Content-Encoding "gzip". *)
Lemma head_headers_differ_from_get_under_gzip :
  ¬ headYieldsHeadersOfGet site disk ∅ (Posix.HEAD "/x.css" (Some "gzip")).
Proof.
  intros Hclaim.
  destruct (Hclaim (response site (Posix.HEAD "/x.css" (Some "gzip")) xcss)
              {["/x.css" := xcss]}) as (getCalls & c & Hget & Hheaders & _); [run |].
  assert (Hrun : Posix.execute site disk ∅
                   (withHttpMethod "GET" (Posix.HEAD "/x.css" (Some "gzip")))
                 = (responded (response site (Posix.GET "/x.css" (Some "gzip")) xcss),
                    {["/x.css" := xcss]})) by run.
  unfold Posix.execute in Hrun. rewrite Hrun in Hget. injection Hget as <- _.
  apply (f_equal (λ h, h.1.2)) in Hheaders. vm_compute in Hheaders. discriminate.
Qed.

End Runs.

(** ** Further properties of the middleware, for any runtime *)

Section MoreProperties.

Context {number : Type} `{!Imports number}.

Implicit Types (this : FritterStaticMiddleware).
Implicit Types (stat : string → option (fs.Stats number)).
Implicit Types (fileDataCache : gmap string (FritterStaticMiddlewareFile number)).
Implicit Types (context : FritterRequest).
Implicit Types (file : FritterStaticMiddlewareFile number).
Implicit Types (dir : FritterStaticMiddlewareDirectory).
Implicit Types (p q k m : string).

(** *** [startsWith] and [slice] *)

Lemma string_app_assoc (a b c : string) : a ++ b ++ c = (a ++ b) ++ c.
Proof.
  induction a as [| x a IH]; [done |].
  change (String x (a ++ b ++ c) = String x ((a ++ b) ++ c)). by rewrite IH.
Qed.

Lemma startsWith_app m s : startsWith (m ++ s) m = true.
Proof.
  unfold startsWith. induction m as [| a m IH]; simpl.
  - by destruct s.
  - by destruct (ascii_dec a a).
Qed.

Lemma slice_app m s : slice (m ++ s) (String.length m) = s.
Proof. induction m as [| a m IH]; simpl; [by destruct s | done]. Qed.

Lemma startsWith_slice p m :
  startsWith p m = true → p = m ++ slice p (String.length m).
Proof.
  unfold startsWith. revert p. induction m as [| a m IH]; intros p; simpl.
  - by destruct p.
  - destruct p as [| b p]; simpl; [done |].
    destruct (ascii_dec a b) as [-> |]; [| done].
    intros Hpre. rewrite (IH p Hpre) at 1. reflexivity.
Qed.

(** X1. A directory that declares a mount path [m] takes part in the
    resolution of a path exactly when the path is [m] followed by some
    rest, and then the path is replaced by that rest; a directory with
    no mount path leaves the path as it is. *)
Theorem handleMountPoint_strips_exactly dir p :
  match mountPath dir with
  | Some m => ∀ q, handleMountPoint dir p = Some q ↔ p = m ++ q
  | None => handleMountPoint dir p = Some p
  end.
Proof.
  unfold handleMountPoint. destruct (mountPath dir) as [m |]; [| done].
  intros q. destruct (startsWith p m) eqn:Hpre; simpl.
  - pose proof (startsWith_slice _ _ Hpre) as Hp. split.
    + intros [= <-]. done.
    + intros Heq. f_equal. rewrite Heq. apply slice_app.
  - split; [done |]. intros ->. by rewrite startsWith_app in Hpre.
Qed.

Lemma handleMountPoint_suffix dir p q :
  handleMountPoint dir p = Some q → ∃ pre, p = pre ++ q.
Proof.
  unfold handleMountPoint. destruct (mountPath dir) as [m |].
  - destruct (startsWith p m) eqn:Hpre; simpl; [| done].
    intros [= <-]. exists m. by apply startsWith_slice.
  - intros [= <-]. by exists "".
Qed.

(** *** What the loop finds *)

(** X2. Whatever file the loop over the directories finds: the key the
    loop ends with is a suffix of the path it was entered with; the
    on-disk path is that key joined to the path of one of the
    configured directories and starts with that directory's path; the
    disk holds a regular file there, whose stat is the entry's
    snapshot; and modified date, size and type are derived from that
    snapshot and path. *)
Theorem iterateDirectories_found_sound stat dirs p k file :
  iterateDirectories stat dirs p = found k file →
  ∃ dir pre,
    In dir dirs
    ∧ p = pre ++ k
    ∧ onDiskFilePath file = path_join (path dir) k
    ∧ startsWith (onDiskFilePath file) (path dir) = true
    ∧ stat (onDiskFilePath file) = Some (stats file)
    ∧ fs.isFile (stats file) = true
    ∧ consistent file.
Proof.
  revert p. induction dirs as [| dir rest IH]; intros p; simpl; [done |].
  assert (Hrest : ∀ pre0 r, p = pre0 ++ r →
            iterateDirectories stat rest r = found k file →
            ∃ dir0 pre, (dir = dir0 ∨ In dir0 rest) ∧ p = pre ++ k
              ∧ onDiskFilePath file = path_join (path dir0) k
              ∧ startsWith (onDiskFilePath file) (path dir0) = true
              ∧ stat (onDiskFilePath file) = Some (stats file)
              ∧ fs.isFile (stats file) = true ∧ consistent file).
  { intros pre0 r -> Hr. destruct (IH r Hr) as (dir0 & pre & Hin & -> & Hfile).
    exists dir0, (pre0 ++ pre). split; [by right | split; [| done]].
    apply string_app_assoc. }
  destruct (handleMountPoint dir p) as [q |] eqn:Hm; [| by apply (Hrest "")].
  assert (Hpq : ∃ pre0, p = pre0 ++ q) by (by apply (handleMountPoint_suffix dir)).
  destruct Hpq as (pre0 & Hpq).
  destruct (startsWith (path_join (path dir) q) (path dir)) eqn:Hg; simpl; [| done].
  destruct (stat (path_join (path dir) q)) as [st |] eqn:Hs; [| by apply (Hrest pre0)].
  destruct (fs.isFile st) eqn:Hf; simpl; [| by apply (Hrest pre0)].
  intros [= <- <-]. exists dir, pre0. simpl. unfold consistent. simpl. auto 10.
Qed.

(** With no mount path anywhere the loop never changes the path. *)
Lemma iterateDirectories_unmounted_key stat dirs p k file :
  Forall (λ dir, mountPath dir = None) dirs →
  iterateDirectories stat dirs p = found k file →
  k = p.
Proof.
  induction 1 as [| dir rest Hnone _ IH]; simpl; [done |].
  unfold handleMountPoint. rewrite Hnone.
  destruct (startsWith _ _); simpl; [| done].
  destruct (stat _) as [st |]; [| done].
  destruct (fs.isFile st); simpl; [by intros [= <- _] | done].
Qed.

(** *** Early exits *)

(** X3. The method is tested before the path is decoded: a request
    whose method is neither "GET" nor "HEAD" (the comparison is
    case-sensitive) goes to the next handler whatever its path, even one
    that cannot be decoded; a GET or HEAD whose path cannot be decoded
    fails instead. Neither looks at the disk, the directories or the
    cache, and the cache is left as it was. *)
Theorem execute_early_exits this stat fileDataCache context :
  (getHttpMethod context ≠ "GET" → getHttpMethod context ≠ "HEAD" →
     execute this stat fileDataCache context = (next, fileDataCache))
  ∧ (getHttpMethod context = "GET" ∨ getHttpMethod context = "HEAD" →
     decodeURIComponent (getPath context) = None →
     execute this stat fileDataCache context = (rejected, fileDataCache)).
Proof.
  unfold execute, getRequestedFilePath. split.
  - intros Hget Hhead.
    apply String.eqb_neq in Hget, Hhead. by rewrite Hget, Hhead.
  - intros Hmeth Hdec.
    assert (Hgate : negb (String.eqb (getHttpMethod context) "GET")
                    && negb (String.eqb (getHttpMethod context) "HEAD") = false).
    { destruct Hmeth as [-> | ->]; reflexivity. }
    by rewrite Hgate, Hdec.
Qed.

(** *** The cache across a call *)

Lemma checkOnDiskFileModifiedDate_onDiskFilePath file st :
  onDiskFilePath (checkOnDiskFileModifiedDate file st) = onDiskFilePath file.
Proof. unfold checkOnDiskFileModifiedDate. by case_bool_decide. Qed.

Lemma checkOnDiskFileModifiedDate_mtimeMs file st :
  fs.mtimeMs (stats (checkOnDiskFileModifiedDate file st)) = fs.mtimeMs st.
Proof.
  unfold checkOnDiskFileModifiedDate. case_bool_decide as Hne; [done |].
  destruct (decide (fs.mtimeMs st = fs.mtimeMs (stats file))) as [<- | Hneq]; [done |].
  by destruct Hne.
Qed.

Lemma checkOnDiskFileModifiedDate_consistent file st :
  consistent file → consistent (checkOnDiskFileModifiedDate file st).
Proof. unfold checkOnDiskFileModifiedDate. by case_bool_decide. Qed.

(** The two ways a call answers: from the entry under the requested
    path, revalidated, or from a file the loop has just found. *)
Lemma execute_inv this stat fileDataCache context outcome fileDataCache' :
  execute this stat fileDataCache context = (outcome, fileDataCache') →
  match outcome with
  | responded calls =>
      ∃ p k file,
        getRequestedFilePath context = inr p
        ∧ fileDataCache' = <[k := file]> fileDataCache
        ∧ calls = response this context file
        ∧ ((∃ cached st, k = p ∧ fileDataCache !! p = Some cached
                         ∧ stat (onDiskFilePath cached) = Some st
                         ∧ file = checkOnDiskFileModifiedDate cached st)
           ∨ (fileDataCache !! p = None
              ∧ iterateDirectories stat (dirs this) p = found k file))
  | next | rejected => fileDataCache' = fileDataCache
  end.
Proof.
  unfold execute.
  destruct (getRequestedFilePath context) as [o | p] eqn:Hp.
  { destruct (getRequestedFilePath_inl _ _ Hp) as [-> | ->]; by intros [= <- <-]. }
  unfold loadFileData. destruct (fileDataCache !! p) as [cached |] eqn:Hc.
  - destruct (stat (onDiskFilePath cached)) as [st |] eqn:Hs; [| by intros [= <- <-]].
    intros [= <- <-]. exists p, p, (checkOnDiskFileModifiedDate cached st).
    split_and!; [done | | done | left; eauto 10].
    unfold checkOnDiskFileModifiedDate. case_bool_decide; [done |].
    by rewrite insert_id.
  - destruct (iterateDirectories stat (dirs this) p) as [| k file |] eqn:Hit;
      [by intros [= <- <-] | | by intros [= <- <-]].
    destruct (iterateDirectories_found_stat _ _ _ _ _ Hit) as (st & Hs & _ & Hfile).
    rewrite Hs.
    assert (Heq : fs.mtimeMs st = fs.mtimeMs (stats file)) by (by rewrite Hfile).
    rewrite (checkOnDiskFileModifiedDate_same _ _ Heq).
    rewrite bool_decide_eq_false_2 by (by intros Hne).
    intros [= <- <-]. exists p, k, file. split_and!; [done | done | done | by right].
Qed.

(** X4. A call of [execute] writes at most one cache key and removes
    none, whatever its outcome. A call that goes to the next handler
    leaves the cache as it was; a call that answers leaves the old
    cache with one key set, and the entry under that key is the file
    the response was built from. *)
Theorem execute_cache_frame this stat fileDataCache context outcome fileDataCache' :
  execute this stat fileDataCache context = (outcome, fileDataCache') →
  (∀ k, is_Some (fileDataCache !! k) → is_Some (fileDataCache' !! k))
  ∧ (fileDataCache' = fileDataCache
     ∨ ∃ k file, fileDataCache' = <[k := file]> fileDataCache)
  ∧ (outcome = next → fileDataCache' = fileDataCache)
  ∧ (∀ calls, outcome = responded calls →
       ∃ k file, fileDataCache' = <[k := file]> fileDataCache
                 ∧ calls = response this context file).
Proof.
  intros Hex. pose proof (execute_inv _ _ _ _ _ _ Hex) as Hinv.
  destruct outcome as [| | calls]; [by subst; split_and!; auto .. |].
  destruct Hinv as (p & k' & file & _ & -> & -> & _). split_and!; [| eauto | done |].
  - intros k Hk. destruct (decide (k' = k)) as [-> |].
    + rewrite lookup_insert_eq. eauto.
    + by rewrite lookup_insert_ne.
  - intros calls [= <-]. eauto.
Qed.

(** *** What the cache holds after any sequence of requests *)

Lemma execute_preserves_entries this stat fileDataCache context :
  map_Forall (λ _ file, consistent file ∧ rooted this file) fileDataCache →
  map_Forall (λ _ file, consistent file ∧ rooted this file)
    (snd (execute this stat fileDataCache context)).
Proof.
  intros Hall.
  destruct (execute this stat fileDataCache context) as [outcome c'] eqn:Hex.
  pose proof (execute_inv _ _ _ _ _ _ Hex) as Hinv. simpl.
  destruct outcome as [| | calls]; [by subst .. |].
  destruct Hinv as (p & k & file & _ & -> & _ & Hhow).
  apply map_Forall_insert_2; [| done].
  destruct Hhow as [(cached & st & -> & Hc & _ & ->) | (_ & Hit)].
  - destruct (Hall _ _ Hc) as [Hcons (dir & Hin & Hpre)]. split.
    + by apply checkOnDiskFileModifiedDate_consistent.
    + exists dir. by rewrite checkOnDiskFileModifiedDate_onDiskFilePath.
  - split.
    + destruct (iterateDirectories_found_stat _ _ _ _ _ Hit) as (st & _ & _ & ->).
      by unfold consistent.
    + by apply (found_file_starts_with_a_directory stat _ p k).
Qed.

Lemma executeAll_preserves_entries this requests fileDataCache :
  map_Forall (λ _ file, consistent file ∧ rooted this file) fileDataCache →
  map_Forall (λ _ file, consistent file ∧ rooted this file)
    (executeAll this requests fileDataCache).
Proof.
  revert fileDataCache. induction requests as [| [stat context] rest IH]; [done |].
  intros c Hall. simpl. apply IH. by apply execute_preserves_entries.
Qed.

(** X5. Starting from the empty cache, after any sequence of requests,
    each on whatever disk it finds, every cache entry agrees with its
    own stat snapshot (modified date, size) and path (type), and has the
    path of a configured directory as a string prefix of its on-disk
    path. *)
Theorem cache_entries_stay_well_formed this requests :
  map_Forall (λ _ file, consistent file ∧ rooted this file) (executeAll this requests ∅).
Proof. apply executeAll_preserves_entries. apply map_Forall_empty. Qed.

Lemma response_setBody_path this context file b :
  In (setBody b) (response this context file) → streamPath b = onDiskFilePath file.
Proof.
  unfold response.
  destruct (isFresh context (validators this file)),
    (String.eqb (getHttpMethod context) "HEAD");
    unfold validators, entityHeaders, bodyCalls;
    destruct (enableGzip this);
    try destruct (acceptsGzip context && shouldGzip this file);
    simpl; intros Hin; decompose [or] Hin; try done;
    match goal with H : _ = setBody b |- _ => by injection H as <- end.
Qed.

(** X6. Starting from the empty cache, after any sequence of requests,
    whatever body a call attaches reads from a file whose on-disk path
    has the path of a configured directory as a string prefix. *)
Theorem served_body_is_under_a_directory_prefix
    this requests stat context calls fileDataCache' b :
  execute this stat (executeAll this requests ∅) context = (responded calls, fileDataCache') →
  In (setBody b) calls →
  ∃ dir, In dir (dirs this) ∧ startsWith (streamPath b) (path dir) = true.
Proof.
  intros Hex Hbody.
  pose proof (execute_preserves_entries this stat _ context
                (executeAll_preserves_entries this requests ∅ (map_Forall_empty _))) as Hall.
  rewrite Hex in Hall. simpl in Hall.
  destruct (execute_inv _ _ _ _ _ _ Hex) as (p & k & file & _ & -> & -> & _).
  destruct (Hall k file (lookup_insert_eq _ _ _)) as [_ (dir & Hin & Hpre)].
  exists dir. by rewrite (response_setBody_path _ _ _ _ Hbody).
Qed.

(** *** Repeating a request *)

Lemma response_ext this this' context file :
  enableGzip this' = enableGzip this →
  cacheControlHeader this' = cacheControlHeader this →
  response this' context file = response this context file.
Proof.
  intros Hgz Hcc.
  unfold response, validators, entityHeaders, bodyCalls, shouldGzip.
  by rewrite Hgz, Hcc.
Qed.

(** X7. With no mount path configured, an answered request that is
    repeated on the same disk is answered from the cache: the calls on
    the response are the same and the cache is left as it is. The
    directories play no part in the second call: any other list of
    directories gives the same. *)
Theorem repeated_request_is_served_from_cache
    this this' stat fileDataCache context calls fileDataCache1 :
  Forall (λ dir, mountPath dir = None) (dirs this) →
  enableGzip this' = enableGzip this →
  cacheControlHeader this' = cacheControlHeader this →
  execute this stat fileDataCache context = (responded calls, fileDataCache1) →
  execute this' stat fileDataCache1 context = (responded calls, fileDataCache1).
Proof.
  intros Hunmounted Hgz Hcc Hex.
  destruct (execute_inv _ _ _ _ _ _ Hex) as (p & k & file & Hp & -> & -> & Hhow).
  assert (Hfile : k = p ∧ ∃ st, stat (onDiskFilePath file) = Some st
                                ∧ fs.mtimeMs st = fs.mtimeMs (stats file)).
  { destruct Hhow as [(cached & st & -> & _ & Hs & ->) | (_ & Hit)].
    - split; [done |]. exists st.
      by rewrite checkOnDiskFileModifiedDate_onDiskFilePath,
                 checkOnDiskFileModifiedDate_mtimeMs.
    - split; [by apply (iterateDirectories_unmounted_key stat (dirs this) p k file) |].
      destruct (iterateDirectories_found_stat _ _ _ _ _ Hit) as (st & Hs & _ & Hfile).
      exists st. split; [done |]. by rewrite Hfile. }
  destruct Hfile as (-> & st & Hs & Heq).
  rewrite (execute_hit this' stat _ context p file Hp (lookup_insert_eq _ _ _)), Hs.
  rewrite (checkOnDiskFileModifiedDate_same _ _ Heq).
  rewrite bool_decide_eq_false_2 by (by intros Hne).
  by rewrite (response_ext this this').
Qed.

(** *** Revalidation does not look at the kind of file *)

(** X8. A cached entry is revalidated by modification time only. When
    the stat of its on-disk path succeeds, the request is answered,
    also when what is there now is not a regular file (a directory that
    took the file's place, say): a GET that is not fresh gets a read
    stream over that path as its body. On a cache miss the same
    candidate is skipped by the loop. *)
Theorem cached_entry_is_answered_whatever_the_disk_holds
    this stat fileDataCache context p file st :
  getRequestedFilePath context = inr p →
  fileDataCache !! p = Some file →
  stat (onDiskFilePath file) = Some st →
  fs.isFile st = false →
  let file' := checkOnDiskFileModifiedDate file st in
  fst (execute this stat fileDataCache context) = responded (response this context file')
  ∧ (getHttpMethod context = "GET" →
     isFresh context (validators this file') = false →
     ∃ b, In (setBody b) (response this context file')
          ∧ streamPath b = onDiskFilePath file)
  ∧ (∀ dir rest q,
       handleMountPoint dir p = Some q →
       path_join (path dir) q = onDiskFilePath file →
       startsWith (onDiskFilePath file) (path dir) = true →
       iterateDirectories stat (dir :: rest) p = iterateDirectories stat rest q).
Proof.
  intros Hp Hc Hs Hf file'. split_and!.
  - by rewrite (execute_hit _ _ _ _ _ _ Hp Hc), Hs.
  - intros Hget Hfresh. exists (createReadStream (onDiskFilePath file')). split.
    + rewrite (response_GET _ _ _ Hfresh Hget).
      apply in_or_app. right. unfold bodyCalls. simpl. tauto.
    + simpl. apply checkOnDiskFileModifiedDate_onDiskFilePath.
  - intros dir rest q Hm Hjoin Hg. apply iterateDirectories_skip; [done | | ].
    + by rewrite Hjoin.
    + right. exists st. by rewrite Hjoin.
Qed.

(** *** Validators and configuration in the final response *)


(** X10. For a middleware built by the constructor with a [maxAge]
    that, when given, is a safe integer, every 200 response carries the
    Cache-Control value chosen at construction: the
    [cacheControlHeader] option when it is given, whatever [maxAge] is,
    and otherwise "public, max-age=" followed by the digits of
    [maxAge], 0 when that is not given either. When the [enableGzip]
    option is not given, the response names "Accept-Encoding" in
    Vary. *)
Theorem constructed_middleware_cache_control
    options stat fileDataCache context calls fileDataCache' :
  (∀ maxAge, options_maxAge options = Some maxAge → isSafeInteger maxAge) →
  execute (constructor options) stat fileDataCache context = (responded calls, fileDataCache') →
  (statusCode (run_calls calls) = Some 200 →
   headerValues (run_calls calls) !! "Cache-Control"
   = Some (match options_cacheControlHeader options, options_maxAge options with
           | Some header, _ => header
           | None, Some maxAge => "public, max-age=" ++ pretty maxAge
           | None, None => "public, max-age=0"
           end))
  ∧ (options_enableGzip options = None →
     varyHeaderNames (run_calls calls) = ["Accept-Encoding"]).
Proof.
  remember (constructor options) as this eqn:Hthis. intros _ Hex.
  destruct (execute_responded _ _ _ _ _ _ Hex) as (k & file & _ & -> & Hmeth).
  assert (Hcc : cacheControlHeader this
                = match options_cacheControlHeader options, options_maxAge options with
                  | Some header, _ => header
                  | None, Some maxAge => "public, max-age=" ++ pretty maxAge
                  | None, None => "public, max-age=0"
                  end).
  { rewrite Hthis. unfold constructor. simpl.
    by destruct (options_cacheControlHeader options), (options_maxAge options). }
  assert (Hgz : options_enableGzip options = None → enableGzip this = true).
  { intros Hnone. rewrite Hthis. unfold constructor. simpl. by rewrite Hnone. }
  clear Hthis.
  rewrite <- Hcc.
  destruct (isFresh context (validators this file)) eqn:Hfresh.
  - rewrite (response_fresh _ _ _ Hfresh), run_calls_app, run_calls_validators. simpl.
    split; [done |]. intros Hnone. by rewrite (Hgz Hnone).
  - destruct Hmeth as [Hget | Hhead].
    + rewrite (run_calls_response_GET _ _ _ Hfresh Hget).
      destruct (acceptsGzip context && shouldGzip this file); simpl.
      * split; [| intros Hnone; by rewrite (Hgz Hnone)]. intros _.
        rewrite lookup_insert_ne by done. rewrite lookup_delete_ne by done.
        apply lookup_singleton_eq.
      * split; [| intros Hnone; by rewrite (Hgz Hnone)]. intros _.
        apply lookup_singleton_eq.
    + rewrite (response_HEAD _ _ _ Hfresh Hhead), run_calls_entityHeaders. simpl.
      split; [| intros Hnone; by rewrite (Hgz Hnone)]. intros _.
      apply lookup_singleton_eq.
Qed.

(** *** [getCacheBustedPath] *)

Lemma getCacheBustedPath_dirs_shape stat dirs filePath :
  ∃ pre s,
    filePath = pre ++ s
    ∧ (getCacheBustedPath_dirs stat dirs filePath = s
       ∨ ∃ dir st, In dir dirs ∧ stat (path_join (path dir) s) = Some st
                   ∧ getCacheBustedPath_dirs stat dirs filePath
                     = s ++ "?mtime=" ++ pretty (fs.mtime st)).
Proof.
  revert filePath. induction dirs as [| dir rest IH]; intros filePath; simpl.
  { exists "", filePath. split; [done | by left]. }
  assert (Hrest : ∀ pre0 r, filePath = pre0 ++ r →
    ∃ pre s, filePath = pre ++ s
      ∧ (getCacheBustedPath_dirs stat rest r = s
         ∨ ∃ dir0 st, (dir = dir0 ∨ In dir0 rest) ∧ stat (path_join (path dir0) s) = Some st
              ∧ getCacheBustedPath_dirs stat rest r = s ++ "?mtime=" ++ pretty (fs.mtime st))).
  { intros pre0 r ->. destruct (IH r) as (pre & s & -> & Hres).
    exists (pre0 ++ pre), s. split; [apply string_app_assoc |].
    destruct Hres as [Hs | (dir0 & st & Hin & Hst & Hs)]; [by left |].
    right. exists dir0, st. auto. }
  destruct (handleMountPoint dir filePath) as [q |] eqn:Hm; [| by apply (Hrest "")].
  destruct (handleMountPoint_suffix _ _ _ Hm) as (pre0 & Hpq).
  destruct (stat (path_join (path dir) q)) as [st |] eqn:Hs; [| by apply (Hrest pre0)].
  exists pre0, q. split; [done |]. right. exists dir, st. auto.
Qed.

(** X11. For a path that is none of the names a plain object inherits,
    looked up in a cache whose prototype has not been replaced,
    [getCacheBustedPath] returns a suffix of the path it is given (the
    whole path when the path is cached or no mount path matched),
    either as it is or followed by "?mtime=" and a time. For a path that
    is not cached the time is the modification time of whatever the disk
    holds, regular file or not, at that suffix joined to one of the
    configured directories. *)
Theorem getCacheBustedPath_shape this stat fileDataCache filePath :
  inheritedKey filePath = false →
  fileDataCache !! "__proto__" = None →
  ∃ pre s,
    filePath = pre ++ s
    ∧ match fileDataCache !! filePath with
      | Some file =>
          pre = "" ∧ getCacheBustedPath this stat fileDataCache filePath
                     = s ++ "?mtime=" ++ Number_toString (fs.mtimeMs (stats file))
      | None =>
          getCacheBustedPath this stat fileDataCache filePath = s
          ∨ ∃ dir st, In dir (dirs this) ∧ stat (path_join (path dir) s) = Some st
                      ∧ getCacheBustedPath this stat fileDataCache filePath
                        = s ++ "?mtime=" ++ pretty (fs.mtime st)
      end.
Proof.
  intros _ _.
  unfold getCacheBustedPath. destruct (fileDataCache !! filePath) as [file |].
  - by exists "", filePath.
  - apply getCacheBustedPath_dirs_shape.
Qed.

(** X12. With no mount path configured, once a request for a path has
    been answered, [getCacheBustedPath] of that path no longer looks at
    the disk: whatever the disk holds later, it returns the path with
    the [mtimeMs] that the answered request saw on its disk. *)
Theorem getCacheBustedPath_after_execute
    this stat stat' fileDataCache context p calls fileDataCache1 :
  Forall (λ dir, mountPath dir = None) (dirs this) →
  getRequestedFilePath context = inr p →
  execute this stat fileDataCache context = (responded calls, fileDataCache1) →
  ∃ file st,
    fileDataCache1 !! p = Some file
    ∧ stat (onDiskFilePath file) = Some st
    ∧ getCacheBustedPath this stat' fileDataCache1 p
      = p ++ "?mtime=" ++ Number_toString (fs.mtimeMs st).
Proof.
  intros Hunmounted Hp Hex.
  destruct (execute_inv _ _ _ _ _ _ Hex) as (p0 & k & file & Hp0 & -> & _ & Hhow).
  rewrite Hp in Hp0. injection Hp0 as <-.
  assert (Hfile : k = p ∧ ∃ st, stat (onDiskFilePath file) = Some st
                                ∧ fs.mtimeMs (stats file) = fs.mtimeMs st).
  { destruct Hhow as [(cached & st & -> & _ & Hs & ->) | (_ & Hit)].
    - split; [done |]. exists st.
      by rewrite checkOnDiskFileModifiedDate_onDiskFilePath,
                 checkOnDiskFileModifiedDate_mtimeMs.
    - split; [by apply (iterateDirectories_unmounted_key stat (dirs this) p k file) |].
      destruct (iterateDirectories_found_stat _ _ _ _ _ Hit) as (st & Hs & _ & Hfile).
      exists st. split; [done |]. by rewrite Hfile. }
  destruct Hfile as (-> & st & Hs & Heq).
  exists file, st. split; [apply lookup_insert_eq | split; [done |]].
  unfold getCacheBustedPath. by rewrite lookup_insert_eq, Heq.
Qed.

End MoreProperties.

(** ** The middleware over the POSIX model of [node:path] *)

Section PosixHost.

Import Node Layout.

#[local] Arguments String.append !_ _ / : simpl nomatch.

Lemma split_nonempty s : split s ≠ [].
Proof. destruct s as [| c s]; simpl; [done |]. destruct (is_slash c); [done |]. by destruct (split s). Qed.

Lemma concat_cons x y l : String.concat "/" (x :: y :: l) = x ++ "/" ++ String.concat "/" (y :: l).
Proof. reflexivity. Qed.

Lemma concat_split s : String.concat "/" (split s) = s.
Proof.
  induction s as [| c s IH]; [done |]. simpl.
  pose proof (split_nonempty s) as Hne.
  destruct (is_slash c) eqn:Hc.
  - apply Ascii.eqb_eq in Hc as ->.
    destruct (split s) as [| seg segs] eqn:Hs; [done |].
    rewrite concat_cons. by rewrite IH.
  - destruct (split s) as [| seg segs] eqn:Hs; [done |].
    destruct segs as [| seg' segs]; simpl in *; by rewrite <- IH.
Qed.

Lemma split_app a b : split (a ++ String "/" b) = (split a ++ split b)%list.
Proof.
  induction a as [| c a IH]; simpl; [done |].
  destruct (is_slash c); [by rewrite IH |].
  rewrite IH. pose proof (split_nonempty a) as Hne.
  by destruct (split a).
Qed.


Lemma split_hasSlash s : Forall (λ seg, hasSlash seg = false) (split s).
Proof.
  induction s as [| c s IH]; simpl; [by constructor |].
  destruct (is_slash c) eqn:Hc; [by constructor |].
  pose proof (split_nonempty s) as Hne.
  destruct (split s) as [| seg segs]; [done |].
  inversion IH as [| ? ? Hseg Hsegs]; subst. constructor; [| done]. simpl. by rewrite Hc.
Qed.

Lemma split_one seg : hasSlash seg = false → split seg = [seg].
Proof.
  induction seg as [| c seg IH]; simpl; [done |].
  destruct (is_slash c); simpl; [done |]. intros Hs. by rewrite (IH Hs).
Qed.

Lemma split_concat segs :
  segs ≠ [] → Forall (λ seg, hasSlash seg = false) segs →
  split (String.concat "/" segs) = segs.
Proof.
  induction segs as [| x segs IH]; [done |]. intros _ Hall.
  inversion Hall as [| ? ? Hx Hrest]; subst.
  destruct segs as [| y segs]; [by apply split_one |].
  rewrite concat_cons. change (x ++ "/" ++ ?r) with (x ++ String "/" r).
  rewrite split_app, (split_one _ Hx), IH; done.
Qed.

Lemma concat_app l1 l2 :
  l1 ≠ [] → l2 ≠ [] →
  String.concat "/" (l1 ++ l2) = String.concat "/" l1 ++ "/" ++ String.concat "/" l2.
Proof.
  induction l1 as [| x l1 IH]; [done |]. intros _ Hl2.
  destruct l1 as [| y l1].
  - destruct l2; [done |]. reflexivity.
  - change ((x :: y :: l1) ++ l2)%list with (x :: y :: (l1 ++ l2))%list.
    rewrite !concat_cons.
    change (y :: (l1 ++ l2))%list with ((y :: l1) ++ l2)%list.
    rewrite IH by done. rewrite <- !string_app_assoc. reflexivity.
Qed.

Lemma push_emptyOrPlain st seg :
  emptyOrPlain seg = true →
  push_segment false st seg = (keep [seg] ++ st)%list.
Proof.
  unfold emptyOrPlain, plainName, push_segment, keep. simpl.
  destruct (String.eqb seg "") eqn:H0; simpl; [done |].
  destruct (String.eqb seg ".") eqn:H1; simpl; [done |].
  destruct (String.eqb seg "..") eqn:H2; simpl; done.
Qed.

Lemma fold_push_emptyOrPlain l st :
  Forall (λ seg, emptyOrPlain seg = true) l →
  fold_left (push_segment false) l st = (rev (keep l) ++ st)%list.
Proof.
  revert st. induction l as [| seg l IH]; intros st Hall; [done |].
  inversion Hall as [| ? ? Hseg Hl]; subst. simpl.
  rewrite (push_emptyOrPlain _ _ Hseg), (IH _ Hl).
  unfold keep. simpl. destruct (String.eqb seg ""); simpl; [done |].
  by rewrite <- app_assoc.
Qed.

(** Above the root nothing is kept: whatever the segments, the stack
    holds plain names taken from them. *)
Lemma fold_push_plain (P : string → Prop) l st :
  Forall P l → Forall (λ seg, plainName seg = true ∧ P seg) st →
  Forall (λ seg, plainName seg = true ∧ P seg) (fold_left (push_segment false) l st).
Proof.
  revert st. induction l as [| seg l IH]; intros st Hl Hst; [done |].
  inversion Hl as [| ? ? Hseg Hl']; subst. simpl. apply IH; [done |].
  unfold push_segment.
  destruct (String.eqb seg "") eqn:H0; simpl; [done |].
  destruct (String.eqb seg ".") eqn:H1; simpl; [done |].
  destruct (String.eqb seg "..") eqn:H2; simpl.
  - destruct st as [| top below]; [done |].
    destruct (String.eqb top ".."); [done |]. by inversion Hst.
  - constructor; [| done]. split; [| done]. unfold plainName. by rewrite H0, H1, H2.
Qed.

Lemma plainName_emptyOrPlain seg : plainName seg = true → emptyOrPlain seg = true.
Proof. unfold emptyOrPlain. intros ->. apply orb_true_r. Qed.

Lemma keep_plain l : Forall (λ seg, plainName seg = true) l → keep l = l.
Proof.
  induction 1 as [| seg l Hseg _ IH]; [done |]. unfold keep in *. simpl.
  rewrite IH. unfold plainName in Hseg. by destruct (String.eqb seg "").
Qed.

Lemma concat_plain_nonempty l :
  l ≠ [] → Forall (λ seg, plainName seg = true) l → String.concat "/" l ≠ "".
Proof.
  destruct l as [| x l]; [done |]. intros _ Hall.
  inversion Hall as [| ? ? Hx _]; subst.
  destruct x as [| c x]; [done |]. by destruct l.
Qed.

Lemma last_is_slash_app a b : b ≠ "" → last_is_slash (a ++ b) = last_is_slash b.
Proof.
  intros Hb. induction a as [| c a IH]; [done |].
  change (String c a ++ b) with (String c (a ++ b)). simpl.
  destruct (a ++ b) eqn:Hab; [| done].
  destruct a; [by subst | done].
Qed.

Lemma last_is_slash_snoc a : last_is_slash (a ++ "/") = true.
Proof. by rewrite last_is_slash_app. Qed.

Lemma first_is_slash_split s :
  first_is_slash s = true → ∃ rest, s = String "/" rest ∧ split s = "" :: split rest.
Proof.
  destruct s as [| c s]; [done |]. simpl. intros Hc.
  pose proof Hc as Hc'. apply Ascii.eqb_eq in Hc' as ->. exists s. by rewrite Hc.
Qed.

(** The shape of a normalized absolute path. *)
Lemma posix_normalize_absolute d :
  first_is_slash d = true →
  ∃ segs, segs ≠ []
    ∧ Forall (λ seg, emptyOrPlain seg = true ∧ hasSlash seg = false) segs
    ∧ posix_normalize d = String "/" (String.concat "/" segs).
Proof.
  intros Habs. unfold posix_normalize.
  destruct (String.eqb d "") eqn:Hd; [apply String.eqb_eq in Hd; by subst |].
  rewrite Habs. simpl. unfold normalizeString.
  pose proof (fold_push_plain (λ seg, hasSlash seg = false) (split d) []
                (split_hasSlash d) (Forall_nil_2 _)) as Hstack.
  apply Forall_rev in Hstack.
  remember (rev (fold_left (push_segment false) (split d) [])) as psegs eqn:Hp.
  clear Hp. destruct (decide (psegs = [])) as [-> | Hne].
  - exists [""]. split; [done |]. split; [by repeat constructor |]. reflexivity.
  - 
    assert (Hplain : Forall (λ seg, plainName seg = true) psegs)
      by (eapply Forall_impl; [exact Hstack | by intros ? []]).
    pose proof (concat_plain_nonempty _ Hne Hplain) as Hcat.
    apply String.eqb_neq in Hcat. rewrite Hcat.
    assert (Hok : Forall (λ seg, emptyOrPlain seg = true ∧ hasSlash seg = false) psegs).
    { eapply Forall_impl; [exact Hstack |]. intros seg [Hs1 Hs2].
      split; [by apply plainName_emptyOrPlain | done]. }
    destruct (last_is_slash d).
    + exists (psegs ++ [""])%list. split; [by destruct psegs |]. split.
      * apply Forall_app. split; [done | by repeat constructor].
      * rewrite concat_app by done. reflexivity.
    + by exists psegs.
Qed.

Lemma keep_app l1 l2 : keep (l1 ++ l2) = (keep l1 ++ keep l2)%list.
Proof. apply List.filter_app. Qed.

Lemma keep_is_plain l :
  Forall (λ seg, emptyOrPlain seg = true) l → Forall (λ seg, plainName seg = true) (keep l).
Proof.
  induction 1 as [| seg l Hseg _ IH]; [done |]. unfold keep in *. simpl.
  unfold emptyOrPlain in Hseg. destruct (String.eqb seg "") eqn:H0; simpl; [done |].
  by constructor.
Qed.

Lemma cleanRoot_split root :
  cleanRoot root = true →
  ∃ names, names ≠ [] ∧ Forall (λ seg, plainName seg = true) names
           ∧ split root = "" :: names
           ∧ root = String "/" (String.concat "/" names).
Proof.
  unfold cleanRoot. intros Hclean.
  pose proof (concat_split root) as Hroot.
  destruct (split root) as [| [| c s] [| seg segs]]; try done.
  exists (seg :: segs). split; [done |]. split; [| split; [done |]].
  - apply Forall_forall. intros x Hx. apply list_elem_of_In in Hx.
    by apply (proj1 (forallb_forall _ _) Hclean).
  - by rewrite concat_cons in Hroot.
Qed.

Lemma string_app_empty_r (r : string) : r ++ "" = r.
Proof.
  induction r as [| c r IH]; [done |].
  change (String c (r ++ "") = String c r). by rewrite IH.
Qed.

Lemma inside_root_or_below root rest :
  (rest = "" ∨ ∃ r, rest = "/" ++ r) →
  Posix.inside root (root ++ rest) = true.
Proof.
  unfold Posix.inside. intros [-> | (r & ->)].
  - by rewrite string_app_empty_r, String.eqb_refl.
  - rewrite string_app_assoc.
    pose proof (startsWith_app (root ++ "/") r) as Hpre. unfold startsWith in Hpre.
    rewrite Hpre. apply orb_true_r.
Qed.

(** Joining a path whose segments are empty or plain names to a clean
    root stays inside the root. *)
Lemma posix_join_inside root q :
  cleanRoot root = true →
  Forall (λ seg, emptyOrPlain seg = true) (split q) →
  Posix.inside root (posix_join root q) = true.
Proof.
  intros Hclean Hq.
  destruct (cleanRoot_split _ Hclean) as (names & Hne & Hplain & Hsplit & Hroot).
  assert (Hshape : ∀ s, first_is_slash s = true → s ≠ "" →
            Forall (λ seg, emptyOrPlain seg = true) (split s) →
            ∀ below, keep (split s) = (names ++ below)%list →
            Posix.inside root (posix_normalize s) = true).
  { intros s Habs Hs Hall below Hkeep. unfold posix_normalize.
    apply String.eqb_neq in Hs. rewrite Hs, Habs. simpl. unfold normalizeString.
    rewrite (fold_push_emptyOrPlain _ _ Hall), app_nil_r, rev_involutive, Hkeep.
    assert (Hbelow : Forall (λ seg, plainName seg = true) below).
    { pose proof (keep_is_plain _ Hall) as Hk. rewrite Hkeep in Hk.
      by apply Forall_app in Hk as [_ Hk]. }
    assert (Hcat : String.concat "/" (names ++ below) ≠ "").
    { apply concat_plain_nonempty; [by destruct names |]. by apply Forall_app. }
    apply String.eqb_neq in Hcat. rewrite Hcat.
    assert (HC : String "/" (String.concat "/" (names ++ below))
                 = root ++ (if decide (below = []) then ""
                            else "/" ++ String.concat "/" below)).
    { case_decide as Hb.
      - subst below. by rewrite app_nil_r, string_app_empty_r.
      - rewrite concat_app by done. by rewrite Hroot. }
    destruct (last_is_slash s).
    + change (Posix.inside root (String "/" (String.concat "/" (names ++ below)) ++ "/") = true).
      rewrite HC, <- string_app_assoc. apply inside_root_or_below. right.
      case_decide; [by exists "" |].
      exists (String.concat "/" below ++ "/"). by rewrite <- string_app_assoc.
    + change (Posix.inside root (String "/" (String.concat "/" (names ++ below))) = true).
      rewrite HC. apply inside_root_or_below. case_decide; [by left | right; eauto]. }
  assert (Hrootabs : first_is_slash root = true) by (by rewrite Hroot).
  assert (Hrootne : root ≠ "") by (by rewrite Hroot).
  assert (Hrootsegs : Forall (λ seg, emptyOrPlain seg = true) (split root)).
  { rewrite Hsplit. constructor; [done |].
    eapply Forall_impl; [exact Hplain |]. apply plainName_emptyOrPlain. }
  assert (Hrootkeep : keep (split root) = names).
  { rewrite Hsplit. unfold keep. simpl. by apply keep_plain. }
  unfold posix_join. apply String.eqb_neq in Hrootne as Hrootne'. rewrite Hrootne'.
  destruct (String.eqb q "") eqn:Hqe.
  - apply (Hshape root Hrootabs Hrootne Hrootsegs []). by rewrite app_nil_r.
  - change (root ++ "/" ++ q) with (root ++ String "/" q).
    apply (Hshape _) with (below := keep (split q)).
    + rewrite Hroot. reflexivity.
    + rewrite Hroot. discriminate.
    + rewrite split_app. by apply Forall_app.
    + by rewrite split_app, keep_app, Hrootkeep.
Qed.

Lemma posix_normalize_segments s :
  first_is_slash s = true →
  Forall (λ seg, emptyOrPlain seg = true) (split (posix_normalize s)).
Proof.
  intros Habs. destruct (posix_normalize_absolute _ Habs) as (segs & Hne & Hsegs & ->).
  simpl. rewrite split_concat.
  - constructor; [done |]. eapply Forall_impl; [exact Hsegs | by intros ? []].
  - done.
  - eapply Forall_impl; [exact Hsegs | by intros ? []].
Qed.

Lemma posix_join_segments root q :
  cleanRoot root = true →
  Forall (λ seg, emptyOrPlain seg = true) (split (posix_join root q)).
Proof.
  intros Hclean.
  destruct (cleanRoot_split _ Hclean) as (names & _ & _ & _ & Hroot).
  unfold posix_join. rewrite Hroot. simpl.
  destruct (String.eqb q ""); by apply posix_normalize_segments.
Qed.

Lemma last_is_slash_inv m : last_is_slash m = true → ∃ m', m = m' ++ "/".
Proof.
  induction m as [| c m IH]; [done |]. simpl. destruct m as [| c' m].
  - intros Hc. apply Ascii.eqb_eq in Hc as ->. by exists "".
  - intros Hm. destruct (IH Hm) as (m' & ->). by exists (String c m').
Qed.

Lemma handleMountPoint_segments dir r q :
  safeDirectory dir = true →
  handleMountPoint dir r = Some q →
  Forall (λ seg, emptyOrPlain seg = true) (split r) →
  Forall (λ seg, emptyOrPlain seg = true) (split q).
Proof.
  unfold safeDirectory, handleMountPoint. intros [_ Hsafe]%andb_true_iff.
  destruct (mountPath dir) as [m |]; [| by intros [= <-]].
  destruct (startsWith r m) eqn:Hpre; simpl; [| done].
  intros [= <-] Hr. rewrite (startsWith_slice _ _ Hpre) in Hr.
  destruct (last_is_slash_inv _ Hsafe) as (m' & ->).
  rewrite <- string_app_assoc in Hr.
  change (m' ++ "/" ++ ?x) with (m' ++ String "/" x) in Hr.
  rewrite split_app in Hr. by apply Forall_app in Hr as [_ Hr].
Qed.

Lemma iterateDirectories_inside (stat : string → option (fs.Stats Z)) dirs p k file :
  Forall (λ dir, safeDirectory dir = true) dirs →
  Forall (λ seg, emptyOrPlain seg = true) (split p) →
  iterateDirectories stat dirs p = found k file →
  (∃ dir, In dir dirs ∧ Posix.inside (path dir) (onDiskFilePath file) = true)
  ∧ Forall (λ seg, emptyOrPlain seg = true) (split (onDiskFilePath file)).
Proof.
  intros Hsafe. revert p. induction Hsafe as [| dir rest Hdir _ IH]; intros p Hp; simpl; [done |].
  assert (Hrest : ∀ r, Forall (λ seg, emptyOrPlain seg = true) (split r) →
            iterateDirectories stat rest r = found k file →
            (∃ dir0, (dir = dir0 ∨ In dir0 rest)
                     ∧ Posix.inside (path dir0) (onDiskFilePath file) = true)
            ∧ Forall (λ seg, emptyOrPlain seg = true) (split (onDiskFilePath file))).
  { intros r Hr Hit. destruct (IH r Hr Hit) as [(dir0 & Hin & Hinside) Hsegs]. eauto. }
  destruct (handleMountPoint dir p) as [q |] eqn:Hm; [| by apply Hrest].
  pose proof (handleMountPoint_segments _ _ _ Hdir Hm Hp) as Hq.
  destruct (startsWith _ _); simpl; [| done].
  destruct (stat _) as [st |]; [| by apply Hrest].
  destruct (fs.isFile st); simpl; [| by apply Hrest].
  unfold safeDirectory in Hdir. apply andb_true_iff in Hdir as [Hclean _].
  intros [= <- <-]. simpl. split.
  - exists dir. split; [by left |]. by apply posix_join_inside.
  - by apply posix_join_segments.
Qed.

Lemma getRequestedFilePath_segments context p :
  absoluteRequest context = true →
  getRequestedFilePath context = inr p →
  Forall (λ seg, emptyOrPlain seg = true) (split p).
Proof.
  unfold absoluteRequest, getRequestedFilePath. simpl.
  destruct (_ && _); [done |].
  destruct (Node.decodeURIComponent (getPath context)) as [decoded |]; [| done].
  intros Habs. destruct (String.eqb _ _); [done |]. intros [= <-].
  destruct (posix_normalize_absolute _ Habs) as (segs & Hne & Hsegs & ->).
  simpl. rewrite split_concat.
  - constructor; [done |]. eapply Forall_impl; [exact Hsegs | by intros ? []].
  - done.
  - eapply Forall_impl; [exact Hsegs | by intros ? []].
Qed.

Lemma execute_preserves_inside this (stat : string → option (fs.Stats Z)) fileDataCache context :
  Forall (λ dir, safeDirectory dir = true) (dirs this) →
  absoluteRequest context = true →
  map_Forall (λ _ file, insideADirectory this file) fileDataCache →
  map_Forall (λ _ file, insideADirectory this file)
    (snd (execute this stat fileDataCache context)).
Proof.
  intros Hsafe Habs Hall.
  destruct (execute this stat fileDataCache context) as [outcome c'] eqn:Hex.
  pose proof (execute_inv _ _ _ _ _ _ Hex) as Hinv. simpl.
  destruct outcome as [| | calls]; [by subst .. |].
  destruct Hinv as (p & k & file & Hp & -> & _ & Hhow).
  apply map_Forall_insert_2; [| done].
  destruct Hhow as [(cached & st & -> & Hc & _ & ->) | (_ & Hit)].
  - destruct (Hall _ _ Hc) as [(dir & Hin & Hinside) Hsegs].
    unfold insideADirectory. rewrite checkOnDiskFileModifiedDate_onDiskFilePath. eauto.
  - apply (iterateDirectories_inside stat (dirs this) p k); [done | | done].
    by apply (getRequestedFilePath_segments context).
Qed.

Lemma executeAll_preserves_inside this
    (requests : list ((string → option (fs.Stats Z)) * FritterRequest)) fileDataCache :
  Forall (λ dir, safeDirectory dir = true) (dirs this) →
  Forall (λ request, absoluteRequest request.2 = true) requests →
  map_Forall (λ _ file, insideADirectory this file) fileDataCache →
  map_Forall (λ _ file, insideADirectory this file) (executeAll this requests fileDataCache).
Proof.
  intros Hsafe Hreqs. revert fileDataCache.
  induction Hreqs as [| [stat context] rest Habs _ IH]; [done |].
  intros c Hall. simpl. apply IH. by apply execute_preserves_inside.
Qed.

(** X13. On a POSIX host, let every directory have a clean absolute
    root and a mount path that, if there is one, ends with "/", and let
    every request path, once decoded, start with "/". Then, starting
    from the empty cache and after any sequence of such requests,
    whatever body a call attaches reads from a file that is one of the
    directories or lies below it (its path is the root or starts with
    the root followed by "/") and whose path has no "." or ".."
    segment. *)
Theorem clean_directories_serve_only_from_inside
    this requests stat context calls fileDataCache' b :
  Forall (λ dir, safeDirectory dir = true) (dirs this) →
  Forall (λ request, absoluteRequest request.2 = true) requests →
  absoluteRequest context = true →
  Posix.execute this stat (executeAll this requests ∅) context
  = (responded calls, fileDataCache') →
  In (setBody b) calls →
  (∃ dir, In dir (dirs this) ∧ Posix.inside (path dir) (streamPath b) = true)
  ∧ Forall (λ seg, emptyOrPlain seg = true) (Node.split (streamPath b)).
Proof.
  intros Hsafe Hreqs Habs Hex Hbody. unfold Posix.execute in Hex.
  pose proof (execute_preserves_inside this stat _ context Hsafe Habs
                (executeAll_preserves_inside this requests ∅ Hsafe Hreqs
                   (map_Forall_empty _))) as Hall.
  rewrite Hex in Hall. simpl in Hall.
  destruct (execute_inv _ _ _ _ _ _ Hex) as (p & k & file & _ & -> & -> & _).
  rewrite (response_setBody_path _ _ _ _ Hbody).
  exact (Hall k file (lookup_insert_eq _ _ _)).
Qed.

(** Below the root ".." may be kept, but never "" or ".". *)
Lemma fold_push_relative l st :
  Forall (λ seg, hasSlash seg = false) l →
  Forall (λ seg, seg ≠ "" ∧ seg ≠ "." ∧ hasSlash seg = false) st →
  Forall (λ seg, seg ≠ "" ∧ seg ≠ "." ∧ hasSlash seg = false)
    (fold_left (push_segment true) l st).
Proof.
  revert st. induction l as [| seg l IH]; intros st Hl Hst; [done |].
  inversion Hl as [| ? ? Hseg Hl']; subst. simpl. apply IH; [done |].
  unfold push_segment.
  destruct (String.eqb seg "") eqn:H0; simpl; [done |].
  destruct (String.eqb seg ".") eqn:H1; simpl; [done |].
  destruct (String.eqb seg "..") eqn:H2; simpl.
  - assert (Hdd : ".." ≠ "" ∧ ".." ≠ "." ∧ hasSlash ".." = false) by (split_and!; done).
    destruct st as [| top below]; [by constructor |].
    destruct (String.eqb top ".."); [by constructor | by inversion Hst].
  - apply String.eqb_neq in H0, H1. by constructor.
Qed.

Lemma concat_head x segs :
  ∃ rest, String.concat "/" (x :: segs) = x ++ rest ∧ (rest = "" ∨ ∃ r, rest = String "/" r).
Proof.
  destruct segs as [| y segs].
  - exists "". by rewrite string_app_empty_r; auto.
  - exists ("/" ++ String.concat "/" (y :: segs)). split; [done | right; eauto].
Qed.

Lemma posix_normalize_relative_guard s rest0 c :
  first_is_slash s = false → s ≠ "" →
  String.prefix (String "." (String "/" (String c rest0))) (posix_normalize s) = false.
Proof.
  intros Hrel Hs. unfold posix_normalize.
  apply String.eqb_neq in Hs. rewrite Hs, Hrel. simpl negb. unfold normalizeString.
  pose proof (fold_push_relative (split s) [] (split_hasSlash s) (Forall_nil_2 _)) as Hstack.
  apply Forall_rev in Hstack.
  remember (rev (fold_left (push_segment true) (split s) [])) as segs eqn:Hsegs. clear Hsegs.
  destruct segs as [| x segs].
  { simpl. by destruct (last_is_slash s). }
  inversion Hstack as [| ? ? (Hx0 & Hx1 & Hxs) _]; subst.
  destruct (concat_head x segs) as (rest & -> & Hrest).
  assert (Hne : x ++ rest ≠ "") by (by destruct x).
  apply String.eqb_neq in Hne. rewrite Hne.
  assert (Hhead : ∀ tail, String.prefix (String "." (String "/" (String c rest0)))
                            (x ++ tail) = false).
  { intros tail. destruct x as [| c1 x]; [done |].
    change (String c1 x ++ tail) with (String c1 (x ++ tail)).
    cbn [String.prefix].
    destruct (ascii_dec "." c1) as [<- |]; [| done].
    destruct x as [| c2 x]; [done |].
    change (String c2 x ++ tail) with (String c2 (x ++ tail)).
    cbn [String.prefix].
    destruct (ascii_dec "/" c2) as [<- |]; [| done].
    simpl in Hxs. done. }
  destruct (last_is_slash s).
  - rewrite <- string_app_assoc. apply Hhead.
  - apply Hhead.
Qed.

Lemma dotSlashRoot_guard root q :
  dotSlashRoot root = true → startsWith (posix_join root q) root = false.
Proof.
  unfold dotSlashRoot, startsWith.
  destruct root as [| c0 root]; [done |].
  destruct c0 as [[] [] [] [] [] [] [] []]; try done.
  destruct root as [| c1 root]; [done |].
  destruct c1 as [[] [] [] [] [] [] [] []]; try done.
  destruct root as [| c root]; [done |].
  intros _. unfold posix_join. simpl String.eqb.
  destruct (String.eqb q ""); by apply posix_normalize_relative_guard.
Qed.

Lemma executeAll_dotSlash this
    (requests : list ((string → option (fs.Stats Z)) * FritterRequest)) dir rest :
  dirs this = dir :: rest → mountPath dir = None → dotSlashRoot (path dir) = true →
  executeAll this requests ∅ = ∅.
Proof.
  intros Hdirs Hmount Hroot.
  induction requests as [| [stat context] requests IH]; [done |]. simpl.
  destruct (execute this stat ∅ context) as [outcome c'] eqn:Hex. simpl.
  pose proof (execute_inv _ _ _ _ _ _ Hex) as Hinv.
  destruct outcome as [| | calls]; [by subst .. |].
  destruct Hinv as (p & k & file & _ & _ & _ & [(cached & st & _ & Hc & _) | (_ & Hit)]).
  - by rewrite lookup_empty in Hc.
  - rewrite Hdirs in Hit.
    rewrite (iterateDirectories_traversal stat dir rest p p) in Hit; [done | |].
    + unfold handleMountPoint. by rewrite Hmount.
    + by apply dotSlashRoot_guard.
Qed.

(** X14. On a POSIX host, a middleware whose first directory has no
    mount path and a path written "./" followed by something answers no
    request at all: [path.join] drops the "./", so the joined path never
    starts with the directory's path as written and the guard sends
    every request to the next handler, before any later directory is
    tried. Starting from the empty cache, the cache stays empty. *)
Theorem dot_slash_directory_answers_nothing
    this requests stat context dir rest :
  dirs this = dir :: rest → mountPath dir = None → dotSlashRoot (path dir) = true →
  executeAll this requests ∅ = ∅
  ∧ ∀ calls, fst (Posix.execute this stat (executeAll this requests ∅) context) ≠ responded calls.
Proof.
  intros Hdirs Hmount Hroot.
  pose proof (executeAll_dotSlash this requests dir rest Hdirs Hmount Hroot) as Hempty.
  split; [done |]. rewrite Hempty. intros calls Hresp.
  pose proof (executeAll_dotSlash this [(stat, context)] dir rest Hdirs Hmount Hroot) as Hone.
  simpl in Hone. unfold Posix.execute in Hresp.
  destruct (execute this stat ∅ context) as [outcome c'] eqn:Hex. simpl in *. subst.
  pose proof (execute_inv _ _ _ _ _ _ Hex) as (p & k & file & _ & Hc & _).
  apply (f_equal (λ c, c !! k)) in Hc. by rewrite lookup_insert_eq, lookup_empty in Hc.
Qed.
Lemma posix_basename_cases p :
  posix_basename p = "" ∨ (posix_basename p ≠ "" ∧ In (posix_basename p) (split p)).
Proof.
  unfold posix_basename.
  destruct (filter (fun seg => negb (String.eqb seg "")) (rev (split p)))
    as [| seg rest] eqn:Hfilter; [by left |].
  right.
  assert (Hin : seg ∈ filter (fun seg => negb (String.eqb seg "")) (rev (split p)))
    by (rewrite Hfilter; apply list_elem_of_here).
  apply list_elem_of_filter in Hin as [Hne Hin]. split.
  - intros ->. done.
  - apply (proj2 (in_rev _ _)). by apply list_elem_of_In.
Qed.

(** X19. On a POSIX host the test on the last segment being "." never
    sends to the next handler a GET or HEAD whose decoded path starts
    with "/": after normalization such a path has no "." segment left,
    so the handler always goes on to the cache with the normalized
    path. *)
Theorem dot_test_is_idle_for_absolute_paths context decoded :
  getHttpMethod context = "GET" ∨ getHttpMethod context = "HEAD" →
  Node.decodeURIComponent (getPath context) = Some decoded →
  first_is_slash decoded = true →
  @getRequestedFilePath Z Posix.imports context = inr (posix_normalize decoded).
Proof.
  intros Hmeth Hdec Habs. unfold getRequestedFilePath. simpl.
  assert (Hgate : negb (String.eqb (getHttpMethod context) "GET")
                  && negb (String.eqb (getHttpMethod context) "HEAD") = false)
    by (destruct Hmeth as [-> | ->]; reflexivity).
  rewrite Hgate, Hdec.
  destruct (String.eqb (posix_basename (posix_normalize decoded)) ".") eqn:Hdot; [| done].
  apply String.eqb_eq in Hdot.
  destruct (posix_basename_cases (posix_normalize decoded)) as [Hempty | [_ Hin]].
  - by rewrite Hdot in Hempty.
  - rewrite Hdot in Hin.
    pose proof (posix_normalize_segments _ Habs) as Hsegs.
    apply Forall_forall with (x := ".") in Hsegs; [done |]. by apply list_elem_of_In.
Qed.

End PosixHost.

(** ** Properties of the earlier class, for any runtime *)

Section V1Properties.

Context {number : Type} `{!Imports number}.

Variable path_normalize : string → string.

Local Abbreviation getRequestedFilePath := (V1.getRequestedFilePath path_normalize).
Local Abbreviation execute := (V1.execute path_normalize).

Implicit Types (this : V1.FritterStaticMiddleware).
Implicit Types (stat : string → option (fs.Stats number)).
Implicit Types (fileDataCache : gmap string (V1.FritterStaticMiddlewareFile number)).
Implicit Types (context : V1.FritterRequest).
Implicit Types (file : V1.FritterStaticMiddlewareFile number).
Implicit Types (dir p : string).

Lemma v1_iterateDirectories_app stat readFileMd5 earlier later p found0 fileDataCache :
  V1.iterateDirectories stat readFileMd5 (earlier ++ later)%list p found0 fileDataCache
  = match V1.iterateDirectories stat readFileMd5 earlier p found0 fileDataCache with
    | V1.finished found1 fileDataCache1 =>
        V1.iterateDirectories stat readFileMd5 later p found1 fileDataCache1
    | ended => ended
    end.
Proof.
  revert found0 fileDataCache. induction earlier as [| dir rest IH]; intros f c; simpl; [done |].
  destruct (startsWith _ _); simpl; [| done].
  destruct (stat _) as [st |]; [| apply IH].
  destruct (fs.isFile st); simpl; [| apply IH].
  destruct (readFileMd5 _); [apply IH | done].
Qed.

Lemma v1_iterateDirectories_skip stat readFileMd5 later p found0 fileDataCache :
  Forall (λ dir, startsWith (path_join dir p) dir = true
                 ∧ noFileAt stat (path_join dir p)) later →
  V1.iterateDirectories stat readFileMd5 later p found0 fileDataCache
  = V1.finished found0 fileDataCache.
Proof.
  induction 1 as [| dir rest [Hg Hno] _ IH]; simpl; [done |].
  rewrite Hg. simpl. by destruct Hno as [-> | (st & -> & ->)].
Qed.

(** What a loop that runs to its end leaves: nothing new, or the last
    regular file it met, stored under the requested path. *)
Lemma v1_iterateDirectories_finished stat readFileMd5 dirs p found0 fileDataCache
    found1 fileDataCache1 :
  V1.iterateDirectories stat readFileMd5 dirs p found0 fileDataCache
  = V1.finished found1 fileDataCache1 →
  (found1 = found0 ∧ fileDataCache1 = fileDataCache)
  ∨ ∃ dir st md5,
      In dir dirs
      ∧ stat (path_join dir p) = Some st ∧ fs.isFile st = true
      ∧ readFileMd5 (path_join dir p) = Some md5
      ∧ found1 = Some (V1.createFileData (path_join dir p) st md5)
      ∧ fileDataCache1 = <[p := V1.createFileData (path_join dir p) st md5]> fileDataCache.
Proof.
  revert found0 fileDataCache. induction dirs as [| dir rest IH]; intros f c; simpl.
  { intros [= <- <-]. by left. }
  assert (Hrest : ∀ f0 c0,
            ((found1 = f0 ∧ fileDataCache1 = c0)
             ∨ ∃ dir0 st md5, In dir0 rest
                 ∧ stat (path_join dir0 p) = Some st ∧ fs.isFile st = true
                 ∧ readFileMd5 (path_join dir0 p) = Some md5
                 ∧ found1 = Some (V1.createFileData (path_join dir0 p) st md5)
                 ∧ fileDataCache1 = <[p := V1.createFileData (path_join dir0 p) st md5]> c0) →
            (f0 = f ∧ c0 = c) →
            (found1 = f ∧ fileDataCache1 = c)
            ∨ ∃ dir0 st md5, (dir = dir0 ∨ In dir0 rest)
                 ∧ stat (path_join dir0 p) = Some st ∧ fs.isFile st = true
                 ∧ readFileMd5 (path_join dir0 p) = Some md5
                 ∧ found1 = Some (V1.createFileData (path_join dir0 p) st md5)
                 ∧ fileDataCache1 = <[p := V1.createFileData (path_join dir0 p) st md5]> c).
  { intros f0 c0 [Hsame | (dir0 & st & md5 & Hin & Hrest)] [-> ->]; [by left |].
    right. exists dir0, st, md5. split; [by right | done]. }
  destruct (startsWith _ _); simpl; [| done].
  destruct (stat (path_join dir p)) as [st |] eqn:Hs;
    [| intros Hit; by apply (Hrest f c (IH _ _ Hit))].
  destruct (fs.isFile st) eqn:Hf; simpl;
    [| intros Hit; by apply (Hrest f c (IH _ _ Hit))].
  destruct (readFileMd5 (path_join dir p)) as [md5 |] eqn:Hr; [| done].
  intros Hit. right.
  destruct (IH _ _ Hit) as [[-> ->] | (dir0 & st0 & md0 & Hin & Hs0 & Hf0 & Hr0 & -> & ->)].
  - exists dir, st, md5. split; [by left | done].
  - exists dir0, st0, md0. split; [by right |]. by rewrite insert_insert_eq.
Qed.

Lemma v1_execute_loaded this stat readFileMd5 fileDataCache context p file fileDataCache1 st :
  getRequestedFilePath context = inr p →
  V1.loadFileData this stat readFileMd5 fileDataCache p = inr (file, fileDataCache1) →
  stat (V1.onDiskFilePath file) = Some st →
  fs.mtimeMs st = fs.mtimeMs (V1.stats file) →
  execute this stat readFileMd5 fileDataCache context
  = (V1.responded (V1.response this context file), fileDataCache1).
Proof.
  intros Hp Hload Hs Heq. unfold V1.execute. rewrite Hp, Hload, Hs.
  rewrite bool_decide_eq_false_2; [done |]. by intros Hne.
Qed.

(** X15. In the earlier class the loop has no [break]: of the
    directories that hold the requested path as a readable regular
    file, the last one in the list is served and cached, whatever the
    directories before it hold, as long as the loop gets past them. *)
Theorem v1_last_regular_file_wins
    this stat readFileMd5 fileDataCache context p earlier dir later found0 fileDataCache0
    st md5 :
  V1.dirs this = (earlier ++ dir :: later)%list →
  getRequestedFilePath context = inr p →
  fileDataCache !! p = None →
  V1.iterateDirectories stat readFileMd5 earlier p None fileDataCache
  = V1.finished found0 fileDataCache0 →
  startsWith (path_join dir p) dir = true →
  stat (path_join dir p) = Some st →
  fs.isFile st = true →
  readFileMd5 (path_join dir p) = Some md5 →
  Forall (λ dir, startsWith (path_join dir p) dir = true
                 ∧ noFileAt stat (path_join dir p)) later →
  let file := V1.createFileData (path_join dir p) st md5 in
  execute this stat readFileMd5 fileDataCache context
  = (V1.responded (V1.response this context file), <[p := file]> fileDataCache).
Proof.
  intros Hdirs Hp Hc Hearlier Hg Hs Hf Hr Hlater file.
  apply (v1_execute_loaded _ _ _ _ _ p _ _ st); [done | | done | done].
  unfold V1.loadFileData. rewrite Hc, Hdirs, v1_iterateDirectories_app, Hearlier.
  simpl. rewrite Hg, Hs, Hf, Hr. simpl.
  rewrite (v1_iterateDirectories_skip _ _ _ _ _ _ Hlater).
  destruct (v1_iterateDirectories_finished _ _ _ _ _ _ _ _ Hearlier)
    as [[_ ->] | (d0 & st0 & md0 & _ & _ & _ & _ & _ & ->)]; [done |].
  by rewrite insert_insert_eq.
Qed.

(** X16. In the earlier class the cache is written inside the loop,
    before the loop is over. When a directory holds the file and a
    later directory fails the guard, the request goes to the next
    handler and yet leaves the entry in the cache; the same request
    made again is then answered from that entry. *)
Theorem v1_unanswered_request_leaves_entry
    this stat readFileMd5 fileDataCache context p earlier bad rest file fileDataCache0 :
  V1.dirs this = (earlier ++ bad :: rest)%list →
  getRequestedFilePath context = inr p →
  fileDataCache !! p = None →
  V1.iterateDirectories stat readFileMd5 earlier p None fileDataCache
  = V1.finished (Some file) fileDataCache0 →
  startsWith (path_join bad p) bad = false →
  execute this stat readFileMd5 fileDataCache context = (V1.next, fileDataCache0)
  ∧ fileDataCache0 = <[p := file]> fileDataCache
  ∧ execute this stat readFileMd5 fileDataCache0 context
    = (V1.responded (V1.response this context file), fileDataCache0).
Proof.
  intros Hdirs Hp Hc Hearlier Hg.
  destruct (v1_iterateDirectories_finished _ _ _ _ _ _ _ _ Hearlier)
    as [[[=] _] | (d0 & st0 & md0 & _ & Hs0 & _ & _ & [= ->] & ->)].
  split_and!; [| done |].
  - unfold V1.execute, V1.loadFileData.
    rewrite Hp, Hc, Hdirs, v1_iterateDirectories_app, Hearlier. simpl. by rewrite Hg.
  - apply (v1_execute_loaded _ _ _ _ _ p _ _ st0); [done | | done | done].
    unfold V1.loadFileData. by rewrite lookup_insert_eq.
Qed.

(** X17. In the earlier class, for a path that is none of the names a
    plain object inherits, looked up in a cache whose prototype has not
    been replaced, [getCacheBustedPath] keeps the path it is given: it
    returns that path, or that path followed by "?mtime=" and a
    time. *)
Theorem v1_getCacheBustedPath_keeps_path this stat fileDataCache (filePath : string) :
  inheritedKey filePath = false →
  fileDataCache !! "__proto__" = None →
  V1.getCacheBustedPath this stat fileDataCache filePath = filePath
  ∨ ∃ time, V1.getCacheBustedPath this stat fileDataCache filePath
            = filePath ++ "?mtime=" ++ time.
Proof.
  intros _ _. unfold V1.getCacheBustedPath. destruct (fileDataCache !! filePath) as [file |]; [eauto |].
  induction (V1.dirs this) as [| dir rest IH]; simpl; [by left |].
  destruct (stat _) as [st |]; [eauto | done].
Qed.

(** X18. The entity tag of the earlier class. A cached entry whose
    [mtimeMs] has not changed is answered with the digest it was cached
    with, and the file is not read. When the [mtimeMs] has changed the
    file is read again: the response and the entry carry the new digest
    as entity tag and, unless the request is fresh, as Content-MD5; if
    the file cannot be read the request fails and the entry is left as
    it was. *)
Theorem v1_entity_tag this stat readFileMd5 fileDataCache context p file st :
  getRequestedFilePath context = inr p →
  fileDataCache !! p = Some file →
  stat (V1.onDiskFilePath file) = Some st →
  (fs.mtimeMs st = fs.mtimeMs (V1.stats file) →
     (∀ readFileMd5',
        execute this stat readFileMd5' fileDataCache context
        = (V1.responded (V1.response this context file), fileDataCache))
     ∧ In (V1.setEntityTag (V1.md5 file)) (V1.response this context file))
  ∧ (fs.mtimeMs st ≠ fs.mtimeMs (V1.stats file) →
     (readFileMd5 (V1.onDiskFilePath file) = None →
        execute this stat readFileMd5 fileDataCache context = (V1.rejected, fileDataCache))
     ∧ (∀ md5, readFileMd5 (V1.onDiskFilePath file) = Some md5 →
          ∃ file',
            execute this stat readFileMd5 fileDataCache context
            = (V1.responded (V1.response this context file'), <[p := file']> fileDataCache)
            ∧ V1.md5 file' = md5
            ∧ V1.onDiskFilePath file' = V1.onDiskFilePath file
            ∧ In (V1.setEntityTag md5) (V1.response this context file')
            ∧ (V1.isFresh context (V1.validators this file') = false →
               In (V1.setHeaderValue "Content-MD5" md5) (V1.response this context file')))).
Proof.
  intros Hp Hc Hs.
  assert (Htag : ∀ f, In (V1.setEntityTag (V1.md5 f)) (V1.response this context f)).
  { intros f. unfold V1.response, V1.validators.
    destruct (V1.isFresh context _); [simpl; tauto |].
    destruct (String.eqb _ _); simpl; tauto. }
  split.
  - intros Heq. split; [| apply Htag]. intros rf.
    apply (v1_execute_loaded _ _ _ _ _ p _ _ st); [done | | done | done].
    unfold V1.loadFileData. by rewrite Hc.
  - intros Hne. split.
    + intros Hr. unfold V1.execute, V1.loadFileData. rewrite Hp, Hc, Hs.
      rewrite bool_decide_eq_true_2 by done. by rewrite Hr.
    + intros md5 Hr. eexists. split_and!.
      * unfold V1.execute, V1.loadFileData. rewrite Hp, Hc, Hs.
        rewrite bool_decide_eq_true_2 by done. rewrite Hr. reflexivity.
      * done.
      * done.
      * apply (Htag (V1.mkFile _ md5 _ _ _ _)).
      * intros Hfresh. unfold V1.response. rewrite Hfresh.
        destruct (String.eqb _ _); apply in_or_app; right; [simpl; tauto |].
        apply in_or_app. left. simpl. tauto.
Qed.

End V1Properties.

(** ** More runs on a POSIX host *)

Section MoreRuns.

Import Examples MoreExamples.

Ltac run := vm_compute; reflexivity.

Lemma iterateDirectories_found_sound_witness :
  ∃ dir pre,
    In dir (dirs layered) ∧ "/x.css" = pre ++ "/x.css"
    ∧ onDiskFilePath xcss = path_join (path dir) "/x.css".
Proof.
  destruct (iterateDirectories_found_sound disk (dirs layered) "/x.css" "/x.css" xcss)
    as (dir & pre & Hin & Hpre & Hjoin & _); [run |].
  exists dir, pre. split; [exact Hin | split; [exact Hpre | exact Hjoin]].
Defined.

Lemma execute_early_exits_witness :
  Posix.execute site disk ∅
    (mkRequest "POST" "/x%" (fun _ => false) answer_false) = (next, ∅)
  ∧ Posix.execute site disk ∅ (Posix.GET "/x%" None) = (rejected, ∅).
Proof.
  split.
  - apply (proj1 (execute_early_exits site disk ∅
                    (mkRequest "POST" "/x%" (fun _ => false) answer_false))); discriminate.
  - apply (proj2 (execute_early_exits site disk ∅ (Posix.GET "/x%" None)));
      [by left | run].
Defined.

Lemma execute_cache_frame_witness :
  is_Some ((<["/x.css" := xcss]> {["/small.css" := xcssBefore]}
            : gmap string (FritterStaticMiddlewareFile Z)) !! "/small.css")
  ∧ ∃ k file,
      (<["/x.css" := xcss]> {["/small.css" := xcssBefore]}
       : gmap string (FritterStaticMiddlewareFile Z))
      = <[k := file]> {["/small.css" := xcssBefore]}
      ∧ response site (Posix.GET "/x.css" None) xcss
        = response site (Posix.GET "/x.css" None) file.
Proof.
  destruct (execute_cache_frame site disk {["/small.css" := xcssBefore]}
              (Posix.GET "/x.css" None)
              (responded (response site (Posix.GET "/x.css" None) xcss))
              (<["/x.css" := xcss]> {["/small.css" := xcssBefore]}))
    as (Hkeys & _ & _ & Hframe); [run |].
  split; [| exact (Hframe _ eq_refl)].
  apply Hkeys. exists xcssBefore. run.
Defined.

Lemma served_body_is_under_a_directory_prefix_witness :
  ∃ dir, In dir (dirs site) ∧ startsWith "/srv/www/x.css" (path dir) = true.
Proof.
  apply (served_body_is_under_a_directory_prefix site
           [(disk, Posix.GET "/small.css" None)] disk (Posix.GET "/x.css" None)
           (response site (Posix.GET "/x.css" None) xcss)
           (snd (Posix.execute site disk
                   (executeAll site [(disk, Posix.GET "/small.css" None)] ∅)
                   (Posix.GET "/x.css" None)))
           (createReadStream "/srv/www/x.css")).
  - run.
  - vm_compute. tauto.
Defined.

Lemma repeated_request_is_served_from_cache_witness :
  Posix.execute layered disk {["/x.css" := xcss]} (Posix.GET "/x.css" None)
  = (responded (response site (Posix.GET "/x.css" None) xcss), {["/x.css" := xcss]}).
Proof.
  apply (repeated_request_is_served_from_cache site layered disk ∅ (Posix.GET "/x.css" None)).
  - repeat constructor.
  - reflexivity.
  - reflexivity.
  - run.
Defined.

Lemma cached_entry_is_answered_whatever_the_disk_holds_witness :
  ∃ file,
    fst (Posix.execute site diskWithDirectory {["/x.css" := xcss]} (Posix.GET "/x.css" None))
    = responded (response site (Posix.GET "/x.css" None) file)
    ∧ onDiskFilePath file = "/srv/www/x.css".
Proof.
  destruct (cached_entry_is_answered_whatever_the_disk_holds site diskWithDirectory
              {["/x.css" := xcss]} (Posix.GET "/x.css" None) "/x.css" xcss
              (Posix.directory 1710000000000)) as [Hex _]; [run .. |].
  eexists. split; [exact Hex | run].
Defined.


Lemma constructed_middleware_cache_control_witness :
  isSafeInteger 3600
  ∧ headerValues (run_calls (response withMaxAge (Posix.GET "/x.css" None) xcss))
    !! "Cache-Control" = Some "public, max-age=3600".
Proof.
  assert (Hsafe : isSafeInteger 3600) by (unfold isSafeInteger; lia).
  split; [exact Hsafe |].
  destruct (@constructed_middleware_cache_control Z Posix.imports
              (mkOptions None [mkDirectory None "/srv/www"] None (Some 3600))
              disk ∅ (Posix.GET "/x.css" None)
              (response withMaxAge (Posix.GET "/x.css" None) xcss)
              {["/x.css" := xcss]}) as [Hcc _];
    [intros maxAge [= <-]; exact Hsafe | run |].
  apply Hcc. run.
Defined.

Lemma getCacheBustedPath_after_execute_witness :
  ∃ file st,
    ({["/x.css" := xcss]} : gmap string _) !! "/x.css" = Some file
    ∧ disk (onDiskFilePath file) = Some st
    ∧ getCacheBustedPath site diskWithDirectory {["/x.css" := xcss]} "/x.css"
      = "/x.css" ++ "?mtime=" ++ Number_toString (fs.mtimeMs st).
Proof.
  apply (getCacheBustedPath_after_execute site disk diskWithDirectory ∅
           (Posix.GET "/x.css" None) "/x.css"
           (response site (Posix.GET "/x.css" None) xcss) {["/x.css" := xcss]}).
  - repeat constructor.
  - run.
  - run.
Defined.

Lemma clean_directories_serve_only_from_inside_witness :
  (∃ dir, In dir (dirs mountedWithSlash) ∧ Posix.inside (path dir) "/srv/www/x.css" = true)
  ∧ Forall (λ seg, Layout.emptyOrPlain seg = true) (Node.split "/srv/www/x.css").
Proof.
  apply (clean_directories_serve_only_from_inside mountedWithSlash
           [(disk, Posix.GET "/assets/small.css" None)] disk
           (Posix.GET "/assets/../assets/x.css" None)
           (response mountedWithSlash (Posix.GET "/assets/x.css" None) xcss)
           (snd (Posix.execute mountedWithSlash disk
                   (executeAll mountedWithSlash [(disk, Posix.GET "/assets/small.css" None)] ∅)
                   (Posix.GET "/assets/../assets/x.css" None)))
           (createReadStream "/srv/www/x.css")).
  - repeat constructor.
  - repeat constructor.
  - run.
  - run.
  - vm_compute. tauto.
Defined.

Lemma dot_slash_directory_answers_nothing_witness :
  disk "/srv/www/x.css" = Some (Posix.regularFile 1700000000000 2000)
  ∧ Posix.execute withDotSlash disk ∅ (Posix.GET "/x.css" None) = (next, ∅)
  ∧ executeAll withDotSlash [(disk, Posix.GET "/x.css" None)] ∅ = ∅.
Proof.
  split; [run | split; [run |]].
  apply (dot_slash_directory_answers_nothing withDotSlash
           [(disk, Posix.GET "/x.css" None)] disk (Posix.GET "/x.css" None)
           (mkDirectory None "./public") [mkDirectory None "/srv/www"]); reflexivity.
Defined.

Lemma dot_test_is_idle_for_absolute_paths_witness :
  @getRequestedFilePath Z Posix.imports (Posix.GET "/a/./b/../" None) = inr "/a/".
Proof.
  apply (dot_test_is_idle_for_absolute_paths (Posix.GET "/a/./b/../" None) "/a/./b/../");
    [by left | run | run].
Defined.

Lemma v1_last_regular_file_wins_witness :
  PosixV1.execute PosixV1.layered disk PosixV1.md5s ∅ (PosixV1.GET "/x.css" None)
  = (V1.responded (V1.response PosixV1.layered (PosixV1.GET "/x.css" None)
                     PosixV1.xcssOfFallback),
     {["/x.css" := PosixV1.xcssOfFallback]}).
Proof.
  unfold PosixV1.execute. etransitivity.
  { apply (v1_last_regular_file_wins Node.posix_normalize PosixV1.layered disk PosixV1.md5s ∅
             (PosixV1.GET "/x.css" None) "/x.css" ["/srv/theme"; "/srv/www"] "/srv/fallback" []
             (Some PosixV1.xcssOfWww) {["/x.css" := PosixV1.xcssOfWww]}
             (Posix.regularFile 1600000000000 90) "89601db6c75ac445ee987ecd8a41923a");
      try run.
    constructor. }
  run.
Defined.

Lemma v1_unanswered_request_leaves_entry_witness :
  PosixV1.execute PosixV1.withDotSlash disk PosixV1.md5s ∅ (PosixV1.GET "/x.css" None)
  = (V1.next, {["/x.css" := PosixV1.xcssOfWww]})
  ∧ PosixV1.execute PosixV1.withDotSlash disk PosixV1.md5s {["/x.css" := PosixV1.xcssOfWww]}
      (PosixV1.GET "/x.css" None)
    = (V1.responded (V1.response PosixV1.withDotSlash (PosixV1.GET "/x.css" None)
                       PosixV1.xcssOfWww),
       {["/x.css" := PosixV1.xcssOfWww]}).
Proof.
  destruct (v1_unanswered_request_leaves_entry Node.posix_normalize PosixV1.withDotSlash
              disk PosixV1.md5s ∅ (PosixV1.GET "/x.css" None) "/x.css"
              ["/srv/www"] "./public" [] PosixV1.xcssOfWww {["/x.css" := PosixV1.xcssOfWww]})
    as (Hfirst & _ & Hsecond); try run.
  split; [exact Hfirst | exact Hsecond].
Defined.

Lemma v1_entity_tag_witness :
  V1.md5 PosixV1.xcssOfFallback = "89601db6c75ac445ee987ecd8a41923a"
  ∧ PosixV1.execute PosixV1.layered disk PosixV1.md5s {["/x.css" := PosixV1.xcssOfFallback]}
      (PosixV1.GET "/x.css" None)
    = (V1.responded (V1.response PosixV1.layered (PosixV1.GET "/x.css" None)
                       PosixV1.xcssOfFallback),
       {["/x.css" := PosixV1.xcssOfFallback]}).
Proof.
  split; [reflexivity |].
  destruct (v1_entity_tag Node.posix_normalize PosixV1.layered disk PosixV1.md5s
              {["/x.css" := PosixV1.xcssOfFallback]} (PosixV1.GET "/x.css" None)
              "/x.css" PosixV1.xcssOfFallback (Posix.regularFile 1600000000000 90))
    as [Hsame _]; [run .. |].
  destruct Hsame as [Hex _]; [run |]. apply Hex.
Defined.

Lemma getCacheBustedPath_shape_witness :
  inheritedKey "/assets/x.css" = false
  ∧ ∃ pre s,
      "/assets/x.css" = pre ++ s
      ∧ (getCacheBustedPath mounted disk ∅ "/assets/x.css" = s
         ∨ ∃ dir st, In dir (dirs mounted) ∧ disk (path_join (path dir) s) = Some st
                     ∧ getCacheBustedPath mounted disk ∅ "/assets/x.css"
                       = s ++ "?mtime=" ++ pretty (fs.mtime st)).
Proof.
  split; [run |].
  exact (@getCacheBustedPath_shape Z Posix.imports mounted disk ∅ "/assets/x.css"
           eq_refl eq_refl).
Defined.

Lemma v1_getCacheBustedPath_keeps_path_witness :
  inheritedKey "/x.css" = false
  ∧ (V1.getCacheBustedPath PosixV1.layered disk {["/x.css" := PosixV1.xcssOfWww]} "/x.css"
     = "/x.css"
     ∨ ∃ time,
         V1.getCacheBustedPath PosixV1.layered disk {["/x.css" := PosixV1.xcssOfWww]} "/x.css"
         = "/x.css" ++ "?mtime=" ++ time).
Proof.
  split; [run |].
  apply (@v1_getCacheBustedPath_keeps_path Z Posix.imports); run.
Defined.

End MoreRuns.
